(* ===== verification/_CoqProject ===== *)
-Q . S2P
Prelude.v
GoNet.v
NetPaths.v
Json.v
Jwks.v
JwtGo.v
Env.v
KeySet.v
Verifier.v
Handlers.v
Main.v
