(* ===== verification/Prelude.v ===== *)
(** * A verification development for fika-bff (src/main.go)

    The program is a small Go backend-for-frontend.  [main] registers two
    HTTP handlers and listens on a port.  [workflowHandler] (route
    /workflow) forwards the caller's Auth0 token to a Google Cloud
    Workflows execution.  [api2Handler] (route /api2) calls [verifyToken]
    on the token and then proxies a GET to a second Cloud Run service,
    re-attaching the token under the header "auth0-token".
    [verifyToken] is the core.  It parses the JWT with jwt-go, fetches
    the JWKS of the Auth0 tenant, and looks for the key whose "kid"
    matches the token header.  It wraps that key's first x5c
    certificate in PEM delimiters and parses the RSA public key.  Then
    it parses the token a second time, with a key function that insists
    on an RSA signing method.

    The library, in dependency order (verification/_CoqProject):
    - [Prelude] (this file): the Go process monad [go S A].  It is a
      state monad whose result is either a value or an abort: [Fatal]
      for log.Fatal/os.Exit, which ends the process, and [Panic] for a
      runtime panic, which net/http recovers per request.  The
      state is kept on abort, so effects before a crash stay observable.
      The file also holds the shared string lemmas, the [go_run] and
      [go_rw] hint databases and the [go_step] tactic.
    - [GoNet]: the parts of net/http the program relies on, from their
      Go source: CanonicalMIMEHeaderKey, http.Header Get/Set/Del, the
      ResponseWriter (WriteHeader once, implicit 200 on Write),
      http.Error, NotFound, fmt's "%v" of a nil pointer, http.Redirect,
      cleanPath over path.Clean, url.URL.String's path escaping, and
      ServeMux (Go 1.21 server.go): exact and subtree patterns, and
      [ServeMux.Handler] with its redirects.
    - [NetPaths]: lemmas on GoNet's paths and URLs.  strings.Split and
      path.Clean on an already clean path, idempotence of cleanPath,
      unescaping as the inverse of url.URL.String's path escaping, and
      the Location header of http.Redirect.
    - [Json]: a reference RFC 8259 reader (string literals, a one-member
      object), the reading the workflow argument is written for.
    - [Jwks]: the data types of main.go (Jwks, JSONWebKeys, lines 47-59)
      and the values a map[string]interface{} holds after JSON decoding,
      with Go's interface-to-string comparison.
    - [JwtGo]: github.com/dgrijalva/jwt-go v3 as the program uses it:
      the signing-method registry, strings.Split on '.', ParseUnverified,
      MapClaims.Valid, and Parse with a key function.  Its
      ValidationError is a bit set built with [Z.lor].  Base64url and
      JSON decoding, PEM/RSA parsing and the signature primitives form
      the typeclass [JoseCodec].  Its laws are those of jwt-go: each
      [Verify] fails on a key of the wrong type, and only a nil
      [*rsa.PublicKey] can make it panic.  Client
      theorems are proved against the class.  [toy_codec] is a concrete
      instance for the sample runs.
    - [Env]: the process state [Proc] and the [World].  [Proc] holds the
      trace of external calls, in order, and the response being
      written.  [World] gives the answers of the Auth0 endpoint, the
      JSON decoder, the Workflows client, the idtoken client, the
      downstream service and the clock.
    - [KeySet]: the key-set fetcher and the key resolver of [verifyToken]
      (main.go lines 72-94).  It also holds the spec's resolver
      [spec_resolve] and the refinement theorem relating the two.
    - [Verifier]: [verifyToken] (lines 61-111), composed from JwtGo and
      KeySet.
    - [Handlers]: [workflowHandler] (122-150) and [api2Handler] (153-175).
    - [Main]: [main] (29-45), the port fallback, and [serve], what the
      server started at line 42 does with a request: [router.ServeHTTP],
      that is the 400 for RequestURI "*", the 301 redirects of
      [ServeMux.Handler], the registered handler, or NotFound.

    What the theorems show (claim ids of PROJECT.json):
    - Authentication never succeeds, and fails loudly.  [verifyToken]
      never returns [true] (C1).  A token with any alg but HS*, the
      RS256 tokens Auth0 issues included, ends the process at line 68
      before any network call (C2).  So do a missing header (C12) and
      an expired token (C21) at /api2.  An HMAC token signed with "AllYourBase" gets
      [false] after one GET (C11).
    - The handlers do not gate on verification.  /api2 issues the
      proxied request whatever the verdict (C3).  /workflow forwards the
      raw token unverified (C4).  The token is spliced into the JSON
      argument, and the argument reads back as {"auth0-token": tok}
      exactly when the token has no quote, backslash or control
      character (C22).
    - Routing: no request ever reaches a handler of the program (C5),
      because the routes are registered on the DefaultServeMux, which is
      not the mux being served.  Every request returns without an
      external call and gets the 400 ("*"), a 301 (an unclean path is
      redirected to its cleaned form) or the 404, and the 404 exactly on
      clean paths.  An unclean path is redirected once: the Location
      decodes to the cleaned path, and that path gets the 404 (C23).
    - Key resolution: the LAST matching key wins (C6).  This refines the
      spec's first-match resolver when kids are distinct (C7), and it
      diverges from it on every key set where two keys share the
      token's kid (C8).  X5c[0] panics on an empty x5c (C9).  The ""
      sentinel is sound (C10).  A decode error is ignored (C14), a
      transport error is fatal (C15), and a missing key is fatal (C16).
    - Handler error paths and success paths: a missing header (C12); the
      fall-through after the CreateExecution error, which prints "<nil>"
      (C13); the nil-client panic (C17); the fatal transport error (C18);
      the 200 relay whatever the downstream status (C19); the /workflow
      success (C20).

    Modelling choices and bounds:
    - Every definition is structurally recursive (loops run over the
      key list or a string), so no fuel is needed.  The JSON scanner
      recurses on a suffix; its length lemma is proved by induction on a
      length bound.
    - No arithmetic of the program can overflow.  The only integers are
      HTTP status codes, Unix times and the jwt-go error bit set, kept as
      [Z].  JSON numbers are kept as the int64 that jwt-go converts them
      to.
    - Go reads the clock in each of the two Parse calls; the model uses
      one time [w_now] per request.
    - The call [jwt.SigningMethodRS256.Verify()] at line 98 has no
      arguments and does not type-check in Go.  The model leaves it out:
      it describes the program as it would run with that line removed.

    Not modelled: logging, which writes to stderr and never changes
    control flow (log.Fatal is modelled as [Fatal]); the deferred
    resp.Body.Close calls and io.ReadAll errors; the internals of the
    cryptography, base64 and JSON parsing behind [JoseCodec], of which
    only the interface laws are used; the Google client libraries beyond
    their success or error answers; the HTTP server loop (connections,
    parsing of the request line into [Request]), which is modelled by
    the handler it calls per request; a failing ListenAndServe (lines
    43-44); ServeMux patterns with a host part and the panic on a
    duplicate registration, which main.go never uses.

    Not yet proved: the ResponseWriter invariant (the status is written
    at most once, and the body only grows) over arbitrary operation
    sequences; case-insensitivity of the header lookup (idempotence of
    CanonicalMIMEHeaderKey); and the claims checks of MapClaims.Valid
    (iat, nbf). *)

From stdpp Require Import base strings gmap list.
From Stdlib Require Import String ZArith Lia.

(** * The Go process monad *)

Declare Scope go_scope.
Delimit Scope go_scope with go.

(** How a Go computation stops abnormally.  [log.Fatal*] prints and
    calls [os.Exit(1)], which ends the whole process.  A runtime error
    (nil dereference, index out of range) panics the goroutine.  Inside
    an HTTP handler, net/http recovers the panic and closes that
    connection; the server goes on. *)
Inductive abort :=
  | Fatal (msg : string)
  | Panic (msg : string).

Inductive res (A : Type) :=
  | Ok (a : A)
  | Exit (e : abort).
Arguments Ok {A} a.
Arguments Exit {A} e.

#[export] Instance abort_eq_dec : EqDecision abort.
Proof. solve_decision. Defined.

Section GoMonad.
  Context {S : Type}.

  (** A computation of the process: from the state before, the outcome
      and the state after.  The state is kept when the process aborts, so
      the effects performed before a [Fatal] remain observable. *)
Definition go (A : Type) := S -> res A * S.

Definition ret {A} (a : A) : go A := fun s => (Ok a, s).

Definition bind {A B} (m : go A) (k : A -> go B) : go B :=
    fun s => match m s with
             | (Ok a, s') => k a s'
             | (Exit e, s') => (Exit e, s')
             end.

Definition modify (f : S -> S) : go unit := fun s => (Ok tt, f s).

Definition exit {A} (e : abort) : go A := fun s => (Exit e, s).

Definition of_res {A} (r : res A) : go A := fun s => (r, s).
End GoMonad.
Arguments go : clear implicits.

Notation "x <- m ;; k" := (bind m (fun x => k))
  (at level 100, m at next level, right associativity) : go_scope.
Notation "m ;; k" := (bind m (fun _ => k))
  (at level 100, right associativity) : go_scope.

Create HintDb go_run discriminated.
Create Rewrite HintDb go_rw.

Section MonadLemmas.
  Context {S : Type}.

Lemma bind_ok {A B} (m : go S A) (k : A -> go S B) s a s' :
    m s = (Ok a, s') -> bind m k s = k a s'.
  Proof. unfold bind. by intros ->. Qed.

Lemma bind_exit {A B} (m : go S A) (k : A -> go S B) s e s' :
    m s = (Exit e, s') -> bind m k s = (Exit e, s').
  Proof. unfold bind. by intros ->. Qed.

Lemma bind_assoc {A B C} (m : go S A) (k : A -> go S B) (h : B -> go S C) s :
    bind (bind m k) h s = bind m (fun a => bind (k a) h) s.
  Proof. unfold bind. by destruct (m s) as [[a|e] s']. Qed.

Lemma bind_ret_r {A} (m : go S A) s : bind m ret s = m s.
  Proof. unfold bind, ret. by destruct (m s) as [[a|e] s']. Qed.
End MonadLemmas.

#[export] Hint Rewrite @bind_assoc : go_rw.

(** Unfold the monad's combinators and reduce. *)
Ltac go_step :=
  cbn [bind ret modify exit of_res] in *.

(** * Shared lemmas on strings *)

Local Open Scope string_scope.

(** stdpp declares [String.append] [simpl never]; the models concatenate
    literal prefixes the way Go's [+] does and need them to reduce. *)
Global Arguments String.append : simpl nomatch.

(** * strings.Split with a one-byte separator *)

Fixpoint split_on (sep : Ascii.ascii) (s : string) : list string :=
  match s with
  | EmptyString => [""]
  | String c s' =>
      if Ascii.eqb c sep then "" :: split_on sep s'
      else match split_on sep s' with
           | [] => [String c ""]
           | x :: xs => String c x :: xs
           end
  end.

Lemma string_app_assoc (a b c : string) : (a ++ b) ++ c = a ++ (b ++ c).
Proof. induction a as [|x a IH]; simpl; congruence. Qed.

Lemma string_app_nil_r (a : string) : a ++ "" = a.
Proof. induction a as [|x a IH]; simpl; congruence. Qed.

(** A string that starts with a non-empty literal is never empty: this is
    what makes the "" sentinel of the key resolver sound. *)
Lemma string_app_cons_nonempty (c : Ascii.ascii) (a b : string) :
  String c a ++ b <> "".
Proof. done. Qed.

Lemma string_eqb_spec (a b : string) : reflect (a = b) (a =? b).
Proof. apply iff_reflect. symmetry. apply String.eqb_eq. Qed.

Lemma string_app_inv_l (p a b : string) : p ++ a = p ++ b -> a = b.
Proof. induction p as [|x p IH]; simpl; [done|]. intros [= ?]. by apply IH. Qed.


Lemma string_length_app (a b : string) :
  String.length (a ++ b) = (String.length a + String.length b)%nat.
Proof. induction a as [|c a IH]; cbn; lia. Qed.

Lemma string_app_inv_r (a b s : string) : a ++ s = b ++ s -> a = b.
Proof.
  revert b. induction a as [|x a IH]; intros [|y b] Hab; cbn in Hab; [done| | |].
  - apply (f_equal String.length) in Hab. cbn in Hab. rewrite string_length_app in Hab. lia.
  - apply (f_equal String.length) in Hab. cbn in Hab. rewrite string_length_app in Hab. lia.
  - injection Hab as -> Hab. by rewrite (IH b Hab).
Qed.

#[export] Hint Resolve string_app_cons_nonempty : go_run.
#[export] Hint Rewrite string_app_assoc string_app_nil_r : go_rw.
