(* ===== verification/GoNet.v ===== *)
(** The parts of Go's net/http (and fmt) that main.go relies on:
    canonical MIME header keys, http.Header's Get/Set/Del, the server's
    ResponseWriter (the status is written once; Write implies
    WriteHeader(200)), http.Error, the "%v" rendering of a nil pointer,
    and what the server does before a handler runs: cleanPath over
    path.Clean, url.URL.String's path escaping, http.Redirect, and
    ServeMux (Go 1.21 server.go) with [ServeMux.Handler]'s trailing-slash
    and clean-path redirects and its NotFound fallback.  These are
    library functions, modelled from their Go source. *)

From stdpp Require Import base strings gmap list.
From Stdlib Require Import String Ascii ZArith.
From S2P Require Import Prelude.

Local Open Scope string_scope.
Local Open Scope Z_scope.

(** * Header keys (net/textproto.CanonicalMIMEHeaderKey) *)

Definition ascii_code (c : ascii) : Z := Z.of_nat (nat_of_ascii c).

(** [validHeaderFieldByte]: the token characters of RFC 7230. *)
Definition valid_header_field_byte (c : ascii) : bool :=
  let n := ascii_code c in
  ((48 <=? n) && (n <=? 57)) || ((65 <=? n) && (n <=? 90))
  || ((97 <=? n) && (n <=? 122))
  || existsb (Ascii.eqb c)
       ["!"; "#"; "$"; "%"; "&"; "'"; "*"; "+"; "-"; "."; "^"; "_"; "`"; "|"; "~"]%char.

Definition to_upper (c : ascii) : ascii :=
  let n := ascii_code c in
  if (97 <=? n) && (n <=? 122) then ascii_of_nat (Z.to_nat (n - 32)) else c.

Definition to_lower (c : ascii) : ascii :=
  let n := ascii_code c in
  if (65 <=? n) && (n <=? 90) then ascii_of_nat (Z.to_nat (n + 32)) else c.

(** The loop of [canonicalMIMEHeaderKey]: upper-case the first letter
    and every letter after a '-', lower-case the others. *)
Fixpoint canon_go (upper : bool) (s : string) : string :=
  match s with
  | EmptyString => EmptyString
  | String c s' =>
      let c' := if upper then to_upper c else to_lower c in
      String c' (canon_go (Ascii.eqb c' "-") s')
  end.

Fixpoint all_bytes (p : ascii -> bool) (s : string) : bool :=
  match s with
  | EmptyString => true
  | String c s' => p c && all_bytes p s'
  end.

(** A key with a byte outside the token set is returned unchanged. *)
Definition CanonicalMIMEHeaderKey (s : string) : string :=
  if all_bytes valid_header_field_byte s then canon_go true s else s.

(** * http.Header: map[string][]string under canonical keys *)

Abbreviation Header := (gmap string (list string)).

Definition header_get (h : Header) (key : string) : string :=
  match h !! CanonicalMIMEHeaderKey key with
  | Some (v :: _) => v
  | _ => ""
  end.

Definition header_set (h : Header) (key v : string) : Header :=
  <[CanonicalMIMEHeaderKey key := [v]]> h.

Definition header_del (h : Header) (key : string) : Header :=
  delete (CanonicalMIMEHeaderKey key) h.

(** * The server's ResponseWriter ([net/http.response]) *)

(** [rw_status] is [None] until WriteHeader has been called (Go's
    [wroteHeader]); [rw_sent] is the header snapshot taken then. *)
Record ResponseWriter := mkRW {
  rw_header : Header;
  rw_status : option Z;
  rw_sent : Header;
  rw_body : string
}.

Definition rw_init : ResponseWriter := mkRW ∅ None ∅ "".

(** WriteHeader: a second call is "superfluous" and only logged. *)
Definition write_header (code : Z) (w : ResponseWriter) : ResponseWriter :=
  match rw_status w with
  | Some _ => w
  | None => mkRW (rw_header w) (Some code) (rw_header w) (rw_body w)
  end.

(** Write: an implicit WriteHeader(http.StatusOK) comes first. *)
Definition write (data : string) (w : ResponseWriter) : ResponseWriter :=
  let w := write_header 200 w in
  mkRW (rw_header w) (rw_status w) (rw_sent w) (rw_body w ++ data).

Definition set_header (key v : string) (w : ResponseWriter) : ResponseWriter :=
  mkRW (header_set (rw_header w) key v) (rw_status w) (rw_sent w) (rw_body w).

Definition del_header (key : string) (w : ResponseWriter) : ResponseWriter :=
  mkRW (header_del (rw_header w) key) (rw_status w) (rw_sent w) (rw_body w).

(** http.Error: reset the content headers, WriteHeader(code), then
    fmt.Fprintln(w, error). *)
Definition http_error (error : string) (code : Z) (w : ResponseWriter) : ResponseWriter :=
  let w := del_header "Content-Length" w in
  let w := set_header "Content-Type" "text/plain; charset=utf-8" w in
  let w := set_header "X-Content-Type-Options" "nosniff" w in
  let w := write_header code w in
  write (error ++ String "010" "") w.

Definition StatusOK : Z := 200.
Definition StatusNotFound : Z := 404.
Definition StatusInternalServerError : Z := 500.

(** fmt's "%v" of a pointer whose String method is called: a nil
    pointer prints "<nil>"; a non-nil one prints its rendering. *)
Definition fmt_v (p : option string) : string :=
  match p with
  | Some s => s
  | None => "<nil>"
  end.

Definition StatusMovedPermanently : Z := 301.
Definition StatusBadRequest : Z := 400.

(** [StatusText] for the codes the program and its server write. *)
Definition StatusText (code : Z) : string :=
  if code =? 200 then "OK"
  else if code =? 301 then "Moved Permanently"
  else if code =? 400 then "Bad Request"
  else if code =? 404 then "Not Found"
  else if code =? 500 then "Internal Server Error"
  else "".

(** * Paths (net/http.cleanPath over path.Clean) *)

Definition starts_with_slash (p : string) : bool :=
  match p with
  | String c _ => Ascii.eqb c "/"
  | EmptyString => false
  end.

(** [p[len(p)-1] == '/'] on a non-empty [p]. *)
Fixpoint ends_with_slash (p : string) : bool :=
  match p with
  | EmptyString => false
  | String c EmptyString => Ascii.eqb c "/"
  | String _ p' => ends_with_slash p'
  end.

(** The lexical loop of path.Clean over the '/'-separated elements, with
    the output kept reversed: empty and "." elements are dropped, ".."
    removes the last kept element; a ".." that cannot back up is dropped
    in a rooted path and kept in a relative one. *)
Fixpoint clean_segs (rooted : bool) (out : list string) (segs : list string) : list string :=
  match segs with
  | [] => out
  | s :: segs' =>
      if String.eqb s "" || String.eqb s "." then clean_segs rooted out segs'
      else if String.eqb s ".." then
        match out with
        | t :: out' =>
            if String.eqb t ".." then clean_segs rooted (".." :: out) segs'
            else clean_segs rooted out' segs'
        | [] => if rooted then clean_segs rooted [] segs' else clean_segs rooted [".."] segs'
        end
      else clean_segs rooted (s :: out) segs'
  end.

(** path.Clean: the shortest lexically equivalent path; "" cleans to ".". *)
Definition path_Clean (p : string) : string :=
  if String.eqb p "" then "." else
  let rooted := starts_with_slash p in
  let body := String.concat "/" (rev (clean_segs rooted [] (split_on "/" p))) in
  if rooted then "/" ++ body
  else if String.eqb body "" then "." else body.

(** cleanPath (server.go): root the path, clean it, and put a trailing
    slash back.  Go's fast path [np = p] applies only when [p] is
    [np + "/"], so it gives the same string. *)
Definition cleanPath (p : string) : string :=
  if String.eqb p "" then "/" else
  let p := if starts_with_slash p then p else "/" ++ p in
  let np := path_Clean p in
  if ends_with_slash p && negb (String.eqb np "/") then np ++ "/" else np.

(** * URLs (net/url.URL.String for a path and a raw query) *)

Definition hex_digit (digits : string) (n : nat) : ascii :=
  match String.get n digits with Some c => c | None => "0"%char end.

(** "%XX" with the upper-case digits of [upperhex]. *)
Definition percent_byte (c : ascii) : string :=
  let n := nat_of_ascii c in
  String "%" (String (hex_digit "0123456789ABCDEF" (n / 16))
               (String (hex_digit "0123456789ABCDEF" (n mod 16)) "")).

Definition is_alnum (c : ascii) : bool :=
  let n := ascii_code c in
  ((48 <=? n) && (n <=? 57)) || ((65 <=? n) && (n <=? 90)) || ((97 <=? n) && (n <=? 122)).

(** [shouldEscape(c, encodePath)]: unreserved characters stay, and of
    the reserved ones only '?' is escaped. *)
Definition should_escape_path (c : ascii) : bool :=
  if is_alnum c then false
  else if existsb (Ascii.eqb c) ["-"; "_"; "."; "~"]%char then false
  else if existsb (Ascii.eqb c) ["$"; "&"; "+"; ","; "/"; ":"; ";"; "="; "?"; "@"]%char
  then Ascii.eqb c "?"
  else true.

(** One byte of the output of [escape]. *)
Definition escape_byte (c : ascii) : string :=
  if should_escape_path c then percent_byte c else String c "".

(** [escape(s, encodePath)]. *)
Fixpoint escape_path (s : string) : string :=
  match s with
  | EmptyString => EmptyString
  | String c s' => escape_byte c ++ escape_path s'
  end.

(** The first path segment contains a colon (RFC 3986 section 4.2). *)
Fixpoint first_segment_has_colon (p : string) : bool :=
  match p with
  | EmptyString => false
  | String c p' =>
      if Ascii.eqb c "/" then false
      else if Ascii.eqb c ":" then true
      else first_segment_has_colon p'
  end.

(** [(&url.URL{Path: path, RawQuery: query}).String()]: no scheme, host
    or fragment; [EscapedPath] keeps "*" as it is. *)
Definition url_string (path query : string) : string :=
  let ep := if String.eqb path "*" then "*" else escape_path path in
  (if first_segment_has_colon ep then "./" else "") ++ ep
  ++ (if String.eqb query "" then "" else "?" ++ query).

(** [hexEscapeNonASCII]: bytes from 0x80 up become '%' and their
    [strconv.AppendInt(_, _, 16)] digits (lower case). *)
Fixpoint hexEscapeNonASCII (s : string) : string :=
  match s with
  | EmptyString => EmptyString
  | String c s' =>
      let n := nat_of_ascii c in
      (if (128 <=? n)%nat
       then String "%" (String (hex_digit "0123456789abcdef" (n / 16))
                         (String (hex_digit "0123456789abcdef" (n mod 16)) ""))
       else String c "") ++ hexEscapeNonASCII s'
  end.

Definition ishex (c : ascii) : bool :=
  let n := ascii_code c in
  ((48 <=? n) && (n <=? 57)) || ((97 <=? n) && (n <=? 102)) || ((65 <=? n) && (n <=? 70)).

Definition unhex (c : ascii) : nat :=
  let n := nat_of_ascii c in
  if (n <=? 57)%nat then n - 48 else if (97 <=? n)%nat then n - 87 else n - 55.

(** [unescape(s, encodePath)], as url.Parse applies it to the path of a
    URL such as a Location: "%XX" with two hex digits is the byte XX,
    any other '%' is an error, and every other byte (a '+' included)
    stands for itself. *)
Fixpoint unescape_path (s : string) : option string :=
  match s with
  | EmptyString => Some EmptyString
  | String c s' =>
      if Ascii.eqb c "%" then
        match s' with
        | String h (String l r) =>
            if ishex h && ishex l
            then option_map (String (ascii_of_nat (unhex h * 16 + unhex l))) (unescape_path r)
            else None
        | _ => None
        end
      else option_map (String c) (unescape_path s')
  end.

Definition html_dquote : string := String "034" "".

(** [htmlEscape]: the replacer of & < > and the two quotes. *)
Fixpoint htmlEscape (s : string) : string :=
  match s with
  | EmptyString => EmptyString
  | String c s' =>
      (if Ascii.eqb c "&" then "&amp;"
       else if Ascii.eqb c "<" then "&lt;"
       else if Ascii.eqb c ">" then "&gt;"
       else if Ascii.eqb c "034" then "&#34;"
       else if Ascii.eqb c "'" then "&#39;"
       else String c "") ++ htmlEscape s'
  end.

(** [path.Split]'s directory: everything up to the last '/'. *)
Fixpoint path_dir (p : string) : string :=
  match p with
  | EmptyString => EmptyString
  | String c p' =>
      let d := path_dir p' in
      if String.eqb d "" then (if Ascii.eqb c "/" then "/" else "") else String c d
  end.

(** [strings.Index(s, "?")], split there. *)
Fixpoint split_query (s : string) : string * string :=
  match s with
  | EmptyString => ("", "")
  | String c s' =>
      if Ascii.eqb c "?" then ("", s)
      else let '(u, q) := split_query s' in (String c u, q)
  end.

(** * Requests *)

(** The fields of [*http.Request] the server reads: the method, the
    request-line target [RequestURI], the decoded [URL.Path], the
    [URL.RawQuery], the protocol version and the header. *)
Record Request := mkRequest {
  req_method : string;
  req_uri : string;
  req_path : string;
  req_query : string;
  req_proto_major : Z;
  req_proto_minor : Z;
  req_header : Header
}.

Definition ProtoAtLeast (r : Request) (major minor : Z) : bool :=
  (major <? req_proto_major r) || ((req_proto_major r =? major) && (minor <=? req_proto_minor r)).

(** The URL http.Redirect writes for a [url] without scheme or host
    (the only kind ServeMux builds): made absolute against the request
    path, cleaned with its trailing slash kept, the query put back. *)
Definition redirect_url (r : Request) (url : string) : string :=
  let oldpath := if String.eqb (req_path r) "" then "/" else req_path r in
  let url := if starts_with_slash url then url else path_dir oldpath ++ url in
  let '(url, query) := split_query url in
  let trailing := ends_with_slash url in
  let url := path_Clean url in
  (if trailing && negb (ends_with_slash url) then url ++ "/" else url) ++ query.

(** http.Redirect: set Location, set the HTML content type for GET and
    HEAD, WriteHeader(code), and for GET write the short HTML body with
    fmt.Fprintln.  The writer given to it has no Content-Type. *)
Definition Redirect (r : Request) (url : string) (code : Z)
    (w : ResponseWriter) : ResponseWriter :=
  let url := redirect_url r url in
  let w := set_header "Location" (hexEscapeNonASCII url) w in
  let get := String.eqb (req_method r) "GET" in
  let w := if get || String.eqb (req_method r) "HEAD"
           then set_header "Content-Type" "text/html; charset=utf-8" w else w in
  let w := write_header code w in
  if get then
    write ("<a href=" ++ html_dquote ++ htmlEscape url ++ html_dquote ++ ">"
           ++ StatusText code ++ "</a>." ++ String "010" (String "010" "")) w
  else w.

(** * ServeMux (Go 1.21 server.go) *)

Section Mux.
  Context {H : Type}.

(** The registered patterns in order of registration.  The program
    registers no pattern twice, so the panic of [Handle] on a duplicate
    is not modelled. *)
Definition ServeMux := list (string * H).

Definition NewServeMux : ServeMux := [].

Definition HandleFunc (pattern : string) (h : H) (m : ServeMux) : ServeMux :=
    (m ++ [(pattern, h)])%list.

(** [mux.m[path]]: the handler registered under exactly this pattern. *)
Fixpoint mux_exact (m : ServeMux) (path : string) : option H :=
    match m with
    | [] => None
    | (p, h) :: m' => if String.eqb p path then Some h else mux_exact m' path
    end.

(** [mux.es]: the longest pattern ending in '/' that prefixes the path. *)
Fixpoint mux_prefix (m : ServeMux) (path : string) : option (string * H) :=
    match m with
    | [] => None
    | (p, h) :: m' =>
        let best := mux_prefix m' path in
        if ends_with_slash p && String.prefix p path then
          match best with
          | Some (p', _) => if (String.length p <? String.length p')%nat then best else Some (p, h)
          | None => Some (p, h)
          end
        else best
    end.

(** [mux.match]: an exact pattern first, then the longest subtree. *)
Definition mux_match (m : ServeMux) (path : string) : option H :=
    match mux_exact m path with
    | Some h => Some h
    | None => option_map snd (mux_prefix m path)
    end.

(** [shouldRedirectRLocked]: no exact pattern for [path], but one for
    [path + "/"], and [path] does not end in '/'.  Patterns with a host
    are not used by the program, so only the bare path is looked up. *)
Definition should_redirect (m : ServeMux) (path : string) : bool :=
    match mux_exact m path with
    | Some _ => false
    | None =>
        negb (String.eqb path "") &&
        match mux_exact m (path ++ "/") with
        | Some _ => negb (ends_with_slash path)
        | None => false
        end
    end.

(** What [ServeMux.Handler] hands the request to. *)
Inductive target :=
  | TRoute (h : H)
  | TNotFound
  | TRedirect (url : string).

(** [ServeMux.Handler]: CONNECT requests keep their path; the others
    are cleaned, redirected to [path/] by [redirectToPathSlash], and
    redirected to the clean path when it differs. *)
Definition mux_handler (m : ServeMux) (r : Request) : target :=
    let connect := String.eqb (req_method r) "CONNECT" in
    let path := if connect then req_path r else cleanPath (req_path r) in
    if should_redirect m path then TRedirect (url_string (path ++ "/") (req_query r))
    else if negb connect && negb (String.eqb path (req_path r))
    then TRedirect (url_string path (req_query r))
    else match mux_match m (req_path r) with
         | Some h => TRoute h
         | None => TNotFound
         end.
End Mux.
Arguments ServeMux : clear implicits.
Arguments target : clear implicits.

Definition NotFound (w : ResponseWriter) : ResponseWriter :=
  http_error "404 page not found" StatusNotFound w.

(** The answer to RequestURI "*" in [ServeMux.ServeHTTP]. *)
Definition bad_request_star (r : Request) (w : ResponseWriter) : ResponseWriter :=
  let w := if ProtoAtLeast r 1 1 then set_header "Connection" "close" w else w in
  write_header StatusBadRequest w.
