(* ===== verification/NetPaths.v ===== *)
(** Lemmas on the paths and URLs of [GoNet]: what strings.Split on '/'
    and path.Clean do with an already clean path, and that cleanPath is
    idempotent (a path ServeMux redirects to is never redirected again);
    that Go's path unescaping inverts the path escaping of
    url.URL.String, and that http.Redirect leaves a ServeMux target
    unchanged, so the Location a client receives decodes to the cleaned
    path. *)

From stdpp Require Import base strings gmap list.
From Stdlib Require Import String Ascii ZArith Lia.
From S2P Require Import Prelude GoNet.

Local Open Scope string_scope.

(** A path element without '/'. *)
Definition no_slash (s : string) : bool := all_bytes (fun d => negb (Ascii.eqb d "/")) s.

(** An element path.Clean keeps: not empty, not "." or "..", no '/'. *)
Definition seg_normal (s : string) : bool :=
  negb (String.eqb s "") && negb (String.eqb s ".") && negb (String.eqb s "..") && no_slash s.

Definition is_ascii (c : ascii) : bool := (nat_of_ascii c <? 128)%nat.

(** * strings.Split on a separator *)

Section Split.
  Variable c : ascii.

Lemma split_on_nonempty s : split_on c s <> [].
Proof.
  induction s as [|x s IH]; cbn; [done|].
  destruct (Ascii.eqb x c); [done|]. by destruct (split_on c s).
Qed.

(** Splitting at a separator splits the two sides independently. *)
Lemma split_on_app_sep a b :
  split_on c (a ++ String c b) = (split_on c a ++ split_on c b)%list.
Proof.
  induction a as [|x a IH]; cbn.
  - by rewrite Ascii.eqb_refl.
  - rewrite IH. destruct (Ascii.eqb x c); [done|].
    destruct (split_on c a) as [|y ys] eqn:Ha; [by destruct (split_on_nonempty a)|]. done.
Qed.

Lemma split_on_no_sep s :
  all_bytes (fun d => negb (Ascii.eqb d c)) s = true -> split_on c s = [s].
Proof.
  induction s as [|x s IH]; cbn; [done|].
  intros [Hx%negb_true_iff Hs]%andb_prop. by rewrite Hx, IH.
Qed.

(** No element of a split holds the separator. *)
Lemma split_on_elems s :
  Forall (fun x => all_bytes (fun d => negb (Ascii.eqb d c)) x = true) (split_on c s).
Proof.
  induction s as [|x s IH]; cbn; [by repeat constructor|].
  destruct (Ascii.eqb x c) eqn:Hx; [by constructor|].
  destruct (split_on c s) as [|y ys]; [by repeat constructor; cbn; rewrite Hx|].
  inversion IH as [|? ? Hy Hys]; subst. constructor; [|done]. cbn. by rewrite Hx, Hy.
Qed.
End Split.

Lemma seg_normal_spec s :
  seg_normal s = true <->
  String.eqb s "" = false /\ String.eqb s "." = false /\ String.eqb s ".." = false /\
  no_slash s = true.
Proof.
  unfold seg_normal. rewrite !andb_true_iff, !negb_true_iff. tauto.
Qed.

Lemma seg_normal_no_slash s : seg_normal s = true -> no_slash s = true.
Proof. unfold seg_normal. by intros [_ ?]%andb_prop. Qed.

Lemma seg_normal_nonempty s : seg_normal s = true -> s <> "".
Proof. unfold seg_normal. intros H ->. done. Qed.

Lemma concat_normal_nonempty x l :
  seg_normal x = true -> String.concat "/" (x :: l) <> "".
Proof.
  intros Hx. destruct l as [|y l]; cbn; [by apply seg_normal_nonempty|].
  destruct x as [|a x]; [done|]. done.
Qed.

Lemma split_on_concat l :
  l <> [] -> Forall (fun s => seg_normal s = true) l ->
  split_on "/" (String.concat "/" l) = l.
Proof.
  induction l as [|x [|y l] IH]; intros Hne Hl; [done| |].
  - inversion Hl; subst. apply split_on_no_sep, seg_normal_no_slash. done.
  - inversion Hl as [|? ? Hx Hyl]; subst.
    change (String.concat "/" (x :: y :: l)) with (x ++ String "/" (String.concat "/" (y :: l))).
    rewrite split_on_app_sep, split_on_no_sep, IH by (done || by apply seg_normal_no_slash).
    done.
Qed.

(** * path.Clean on a clean path *)

Lemma clean_segs_app r out l1 l2 :
  clean_segs r out (l1 ++ l2) = clean_segs r (clean_segs r out l1) l2.
Proof.
  revert out. induction l1 as [|s l1 IH]; intros out; [done|]. cbn.
  repeat case_match; apply IH.
Qed.

Lemma clean_segs_empty r out l : clean_segs r out ("" :: l) = clean_segs r out l.
Proof. reflexivity. Qed.

(** Normal elements are only pushed. *)
Lemma clean_segs_normal r out l :
  Forall (fun s => seg_normal s = true) l -> clean_segs r out l = (rev l ++ out)%list.
Proof.
  revert out. induction l as [|s l IH]; intros out Hl; [done|].
  inversion Hl as [|? ? Hs Hl']; subst. apply seg_normal_spec in Hs as (H1 & H2 & H3 & _).
  cbn. rewrite H1, H2, H3. cbn. rewrite IH by done. by rewrite <- app_assoc.
Qed.

(** In a rooted path, every element path.Clean keeps is normal. *)
Lemma clean_segs_rooted_normal out l :
  Forall (fun s => seg_normal s = true) out -> Forall (fun s => no_slash s = true) l ->
  Forall (fun s => seg_normal s = true) (clean_segs true out l).
Proof.
  revert out. induction l as [|s l IH]; intros out Hout Hl; [done|].
  inversion Hl as [|? ? Hs Hl']; subst. cbn.
  destruct (String.eqb s "") eqn:H1; [by apply IH|].
  destruct (String.eqb s ".") eqn:H2; [by apply IH|].
  destruct (String.eqb s "..") eqn:H3.
  - destruct out as [|t out']; [by apply IH|].
    inversion Hout as [|? ? Ht Hout']; subst.
    destruct (String.eqb t "..") eqn:Ht'; [|by apply IH].
    apply seg_normal_spec in Ht as (_ & _ & Ht & _). by rewrite Ht' in Ht.
  - apply IH; [|done]. constructor; [|done]. by apply seg_normal_spec.
Qed.

Lemma split_on_slash_rooted l :
  Forall (fun s => seg_normal s = true) l ->
  clean_segs true [] (split_on "/" ("/" ++ String.concat "/" l)) = rev l.
Proof.
  intros Hl. cbn [String.append split_on]. rewrite Ascii.eqb_refl.
  destruct l as [|x l]; [reflexivity|].
  rewrite split_on_concat, clean_segs_empty, clean_segs_normal by done. apply app_nil_r.
Qed.

(** The form of every result of path.Clean on a rooted path. *)
Lemma path_Clean_rooted p :
  starts_with_slash p = true ->
  exists l, Forall (fun s => seg_normal s = true) l /\ path_Clean p = "/" ++ String.concat "/" l.
Proof.
  intros Hp. unfold path_Clean. rewrite Hp.
  destruct (String.eqb p "") eqn:He; [by apply String.eqb_eq in He as ->|].
  eexists. split; [|reflexivity].
  apply Forall_rev, clean_segs_rooted_normal; [done|]. apply split_on_elems.
Qed.

Lemma path_Clean_clean l :
  Forall (fun s => seg_normal s = true) l ->
  path_Clean ("/" ++ String.concat "/" l) = "/" ++ String.concat "/" l.
Proof.
  intros Hl. unfold path_Clean. cbn [String.eqb String.append starts_with_slash].
  rewrite Ascii.eqb_refl. change (String "/" (String.concat "/" l)) with ("/" ++ String.concat "/" l).
  by rewrite split_on_slash_rooted, rev_involutive.
Qed.

(** A trailing slash is an empty last element, which path.Clean drops. *)
Lemma path_Clean_clean_trailing l :
  Forall (fun s => seg_normal s = true) l ->
  path_Clean ("/" ++ String.concat "/" l ++ "/") = "/" ++ String.concat "/" l.
Proof.
  intros Hl. unfold path_Clean. cbn [String.eqb String.append starts_with_slash].
  rewrite Ascii.eqb_refl. f_equal.
  change (String "/" (String.concat "/" l ++ "/"))
    with ("/" ++ (String.concat "/" l ++ String "/" "")).
  rewrite <- string_app_assoc. change ("/" ++ String.concat "/" l) with (String "/" (String.concat "/" l)).
  rewrite (split_on_app_sep "/" (String "/" (String.concat "/" l)) "").
  rewrite clean_segs_app. change (String "/" (String.concat "/" l)) with ("/" ++ String.concat "/" l).
  rewrite split_on_slash_rooted by done. cbn. by rewrite rev_involutive.
Qed.

(** * cleanPath is idempotent *)

Lemma ends_with_slash_app a b :
  b <> "" -> ends_with_slash (a ++ b) = ends_with_slash b.
Proof.
  intros Hb. induction a as [|x a IH]; [done|]. cbn.
  destruct (a ++ b) as [|y r] eqn:Hab; [|done].
  by destruct a, b.
Qed.

Lemma ends_with_slash_no_slash s :
  s <> "" -> no_slash s = true -> ends_with_slash s = false.
Proof.
  induction s as [|x s IH]; intros Hne Hs; [done|].
  cbn in Hs. apply andb_prop in Hs as [Hx%negb_true_iff Hs].
  destruct s as [|y s]; [done|]. by apply IH.
Qed.

Lemma ends_with_slash_concat l :
  l <> [] -> Forall (fun s => seg_normal s = true) l ->
  ends_with_slash (String.concat "/" l) = false.
Proof.
  induction l as [|x [|y l] IH]; intros Hne Hl; [done| |].
  - inversion Hl; subst. cbn. apply ends_with_slash_no_slash;
      [by apply seg_normal_nonempty | by apply seg_normal_no_slash].
  - inversion Hl as [|? ? Hx Hyl]; subst.
    change (String.concat "/" (x :: y :: l)) with (x ++ String "/" (String.concat "/" (y :: l))).
    rewrite ends_with_slash_app by done. cbn [ends_with_slash].
    pose proof (concat_normal_nonempty y l) as Hc.
    inversion Hyl; subst. destruct (String.concat "/" (y :: l)) eqn:E; [by destruct Hc|].
    cbn [ends_with_slash]. by apply IH.
Qed.

(** The results of cleanPath: a clean rooted path, with or without a
    trailing slash after a non-root path. *)
Lemma cleanPath_form p :
  exists l, Forall (fun s => seg_normal s = true) l /\
    (cleanPath p = "/" ++ String.concat "/" l
     \/ l <> [] /\ cleanPath p = "/" ++ String.concat "/" l ++ "/").
Proof.
  unfold cleanPath. destruct (String.eqb p "") eqn:He; [by exists []; split; [|left]|].
  set (p' := if starts_with_slash p then p else "/" ++ p).
  destruct (path_Clean_rooted p') as (l & Hl & Hc).
  { unfold p'. by destruct (starts_with_slash p) eqn:Hs. }
  exists l. split; [done|]. rewrite Hc.
  destruct (ends_with_slash p' && negb (String.eqb ("/" ++ String.concat "/" l) "/")) eqn:Ht;
    [right|by left].
  apply andb_prop in Ht as [_ Ht%negb_true_iff]. split; [|by rewrite string_app_assoc].
  intros ->. done.
Qed.

Lemma cleanPath_clean l :
  Forall (fun s => seg_normal s = true) l ->
  cleanPath ("/" ++ String.concat "/" l) = "/" ++ String.concat "/" l.
Proof.
  intros Hl. unfold cleanPath. cbn [String.eqb String.append starts_with_slash].
  rewrite Ascii.eqb_refl. change (String "/" (String.concat "/" l)) with ("/" ++ String.concat "/" l).
  rewrite path_Clean_clean by done.
  destruct l as [|x l]; [done|].
  rewrite ends_with_slash_app, ends_with_slash_concat by (done || by apply concat_normal_nonempty; inversion Hl).
  done.
Qed.

Lemma cleanPath_clean_trailing l :
  l <> [] -> Forall (fun s => seg_normal s = true) l ->
  cleanPath ("/" ++ String.concat "/" l ++ "/") = "/" ++ String.concat "/" l ++ "/".
Proof.
  intros Hne Hl. unfold cleanPath. cbn [String.eqb String.append starts_with_slash].
  rewrite Ascii.eqb_refl.
  change (String "/" (String.concat "/" l ++ "/")) with ("/" ++ String.concat "/" l ++ "/").
  rewrite path_Clean_clean_trailing by done.
  rewrite <- string_app_assoc, ends_with_slash_app by done.
  destruct l as [|x l]; [done|]. inversion Hl; subst.
  destruct (String.concat "/" (x :: l)) as [|a t] eqn:E;
    [by destruct (concat_normal_nonempty x l)|].
  by rewrite string_app_assoc.
Qed.

(** A path ServeMux redirects to is clean: it is never redirected again. *)
Lemma cleanPath_idempotent p : cleanPath (cleanPath p) = cleanPath p.
Proof.
  destruct (cleanPath_form p) as (l & Hl & [-> | [Hne ->]]).
  - by apply cleanPath_clean.
  - by apply cleanPath_clean_trailing.
Qed.

(** * Escaping and unescaping a path *)

(** Facts on the 256 bytes, checked byte by byte. *)
Lemma unescape_percent_byte c r :
  unescape_path (percent_byte c ++ r) = option_map (String c) (unescape_path r).
Proof. destruct c as [[] [] [] [] [] [] [] []]; reflexivity. Qed.

Lemma escape_byte_cases c :
  (should_escape_path c = true /\ escape_byte c = percent_byte c) \/
  (should_escape_path c = false /\ Ascii.eqb c "%" = false /\ Ascii.eqb c "?" = false
   /\ escape_byte c = String c "").
Proof. destruct c as [[] [] [] [] [] [] [] []]; cbv; auto. Qed.

Lemma escape_byte_ascii c : all_bytes is_ascii (escape_byte c) = true.
Proof. destruct c as [[] [] [] [] [] [] [] []]; reflexivity. Qed.

Lemma escape_byte_no_slash c : no_slash (escape_byte c) = negb (Ascii.eqb c "/").
Proof. destruct c as [[] [] [] [] [] [] [] []]; reflexivity. Qed.

(** Only '.' is written as a string starting with '.', and as itself. *)
Lemma escape_byte_dot c r : escape_byte c = String "." r -> c = "."%char /\ r = "".
Proof. destruct c as [[] [] [] [] [] [] [] []]; cbv; intros H; by simplify_eq. Qed.

Lemma escape_byte_nonempty c : escape_byte c <> "".
Proof. destruct c as [[] [] [] [] [] [] [] []]; discriminate. Qed.

Lemma split_query_escape_byte c t :
  split_query (escape_byte c ++ t) = (escape_byte c ++ fst (split_query t), snd (split_query t)).
Proof.
  destruct (split_query t) as [a b] eqn:E.
  destruct c as [[] [] [] [] [] [] [] []]; unfold escape_byte, percent_byte; simpl; rewrite ?E; reflexivity.
Qed.

Lemma escape_path_app a b : escape_path (a ++ b) = escape_path a ++ escape_path b.
Proof. induction a as [|c a IH]; cbn; [done|]. by rewrite IH, string_app_assoc. Qed.

(** Go's unescaping inverts the escaping of a path. *)
Lemma unescape_escape_path s : unescape_path (escape_path s) = Some s.
Proof.
  induction s as [|c s IH]; [done|]. cbn [escape_path].
  destruct (escape_byte_cases c) as [[_ ->] | (_ & Hp & _ & ->)].
  - by rewrite unescape_percent_byte, IH.
  - cbn. by rewrite Hp, IH.
Qed.

Lemma escape_path_ascii s : all_bytes is_ascii (escape_path s) = true.
Proof.
  induction s as [|c s IH]; [done|]. cbn [escape_path].
  pose proof (escape_byte_ascii c) as Hc.
  induction (escape_byte c) as [|d e IHe]; [done|]. cbn in *.
  apply andb_prop in Hc as [-> ?]. by apply IHe.
Qed.

Lemma split_query_escape_path s t :
  split_query (escape_path s ++ t) = (escape_path s ++ fst (split_query t), snd (split_query t)).
Proof.
  induction s as [|c s IH]; cbn [escape_path]; [cbn; by destruct (split_query t)|].
  rewrite string_app_assoc, split_query_escape_byte, IH. cbn. by rewrite string_app_assoc.
Qed.

(** * The escaped form of a clean path is clean *)

Lemma escape_path_empty s : escape_path s = "" -> s = "".
Proof.
  destruct s as [|c s]; [done|]. cbn. pose proof (escape_byte_nonempty c) as Hne.
  by destruct (escape_byte c).
Qed.

Lemma string_app_eq_nil a b : a ++ b = "" -> a = "" /\ b = "".
Proof. by destruct a, b. Qed.

(** The escaped form of a path starts with the escaped form of its
    first byte, which is never empty. *)
Lemma escape_path_cons c s :
  exists d e, escape_byte c = String d e /\ escape_path (String c s) = String d (e ++ escape_path s).
Proof.
  cbn [escape_path]. pose proof (escape_byte_nonempty c) as Hne.
  destruct (escape_byte c) as [|d e]; [done|].
  by exists d, e.
Qed.

Lemma escape_path_dot s : escape_path s = "." -> s = ".".
Proof.
  destruct s as [|c s]; [done|].
  destruct (escape_path_cons c s) as (d & e & Hc & ->). intros [= -> He].
  apply string_app_eq_nil in He as [-> ->%escape_path_empty].
  by apply escape_byte_dot in Hc as [-> _].
Qed.

Lemma escape_path_dotdot s : escape_path s = ".." -> s = "..".
Proof.
  destruct s as [|c s]; [done|].
  destruct (escape_path_cons c s) as (d & e & Hc & ->). intros [= -> He].
  apply escape_byte_dot in Hc as [-> ->]. cbn in He. by apply escape_path_dot in He as ->.
Qed.

Lemma all_bytes_app p a b : all_bytes p (a ++ b) = all_bytes p a && all_bytes p b.
Proof. induction a as [|c a IH]; cbn; [done|]. by rewrite IH, andb_assoc. Qed.

Lemma no_slash_app a b : no_slash (a ++ b) = no_slash a && no_slash b.
Proof. apply all_bytes_app. Qed.

Lemma no_slash_escape_path s : no_slash (escape_path s) = no_slash s.
Proof.
  induction s as [|c s IH]; [done|]. cbn [escape_path].
  by rewrite no_slash_app, IH, escape_byte_no_slash.
Qed.

Lemma seg_normal_escape_path s : seg_normal s = true -> seg_normal (escape_path s) = true.
Proof.
  rewrite !seg_normal_spec, no_slash_escape_path.
  intros (H1 & H2 & H3 & H4). split_and!; [| | |done]; apply String.eqb_neq.
  - by intros ->%escape_path_empty.
  - intros ->%escape_path_dot. by rewrite String.eqb_refl in H2.
  - intros ->%escape_path_dotdot. by rewrite String.eqb_refl in H3.
Qed.

Lemma escape_path_concat l :
  escape_path (String.concat "/" l) = String.concat "/" (escape_path <$> l).
Proof.
  induction l as [|x [|y l] IH]; [done|done|].
  change (String.concat "/" (x :: y :: l)) with (x ++ String "/" (String.concat "/" (y :: l))).
  rewrite escape_path_app. cbn [escape_path]. rewrite IH. reflexivity.
Qed.

(** * The Location of ServeMux's redirects *)

Lemma cleanPath_starts_with_slash p : starts_with_slash (cleanPath p) = true.
Proof. by destruct (cleanPath_form p) as (l & _ & [-> | [_ ->]]). Qed.

Lemma escape_path_rooted l :
  escape_path ("/" ++ String.concat "/" l) = "/" ++ String.concat "/" (escape_path <$> l).
Proof. rewrite escape_path_app, escape_path_concat. reflexivity. Qed.

(** The escaped form of every result of cleanPath. *)
Lemma escape_cleanPath_form p :
  exists l, Forall (fun s => seg_normal s = true) l /\
    (escape_path (cleanPath p) = "/" ++ String.concat "/" l
     \/ l <> [] /\ escape_path (cleanPath p) = "/" ++ String.concat "/" l ++ "/").
Proof.
  destruct (cleanPath_form p) as (l & Hl & Hc).
  exists (escape_path <$> l). split.
  { apply Forall_fmap. eapply Forall_impl; [done|]. apply seg_normal_escape_path. }
  destruct Hc as [-> | [Hne ->]]; [left; apply escape_path_rooted|right].
  split; [by destruct l|]. by rewrite <- string_app_assoc, escape_path_app, escape_path_rooted,
    string_app_assoc.
Qed.

Lemma url_string_rooted path q :
  starts_with_slash path = true ->
  url_string path q = escape_path path ++ (if String.eqb q "" then "" else "?" ++ q).
Proof.
  destruct path as [|c path]; [done|]. cbn. intros ->%Ascii.eqb_eq. reflexivity.
Qed.

Lemma split_query_query_part q :
  split_query (if String.eqb q "" then "" else "?" ++ q) = ("", if String.eqb q "" then "" else "?" ++ q).
Proof. by destruct (String.eqb q ""). Qed.

(** http.Redirect's own cleaning keeps a path ServeMux built. *)
Lemma redirect_reclean p :
  let e := escape_path (cleanPath p) in
  (if ends_with_slash e && negb (ends_with_slash (path_Clean e))
   then path_Clean e ++ "/" else path_Clean e) = e.
Proof.
  cbn zeta. destruct (escape_cleanPath_form p) as (l & Hl & [-> | [Hne ->]]).
  - rewrite path_Clean_clean by done. by destruct (ends_with_slash _).
  - rewrite path_Clean_clean_trailing by done.
    rewrite <- string_app_assoc, ends_with_slash_app by done.
    destruct l as [|x l]; [done|]. inversion Hl; subst.
    destruct (String.concat "/" (x :: l)) as [|a t] eqn:E;
      [by destruct (concat_normal_nonempty x l)|].
    assert (ends_with_slash ("/" ++ String a t) = false) as ->.
    { rewrite <- E, ends_with_slash_app by (by rewrite E). by apply ends_with_slash_concat. }
    reflexivity.
Qed.

Lemma redirect_url_cleanPath r p q :
  redirect_url r (url_string (cleanPath p) q)
    = escape_path (cleanPath p) ++ (if String.eqb q "" then "" else "?" ++ q).
Proof.
  rewrite url_string_rooted by apply cleanPath_starts_with_slash.
  unfold redirect_url.
  destruct (escape_cleanPath_form p) as (l & _ & Hc).
  replace (starts_with_slash _) with true
    by (by destruct Hc as [-> | [_ ->]]).
  rewrite split_query_escape_path, split_query_query_part, string_app_nil_r. cbn.
  by rewrite (redirect_reclean p).
Qed.

Lemma hexEscapeNonASCII_app a b :
  hexEscapeNonASCII (a ++ b) = hexEscapeNonASCII a ++ hexEscapeNonASCII b.
Proof. induction a as [|c a IH]; cbn; [done|]. by rewrite IH, string_app_assoc. Qed.

(** An ASCII string has nothing to hex-escape. *)
Lemma hexEscapeNonASCII_ascii s : all_bytes is_ascii s = true -> hexEscapeNonASCII s = s.
Proof.
  induction s as [|c s IH]; [done|]. cbn [hexEscapeNonASCII all_bytes].
  intros [Hc Hs]%andb_prop. unfold is_ascii in Hc. apply Nat.ltb_lt in Hc.
  replace (128 <=? nat_of_ascii c)%nat with false by (symmetry; apply Nat.leb_gt; lia).
  cbn [String.append]. by rewrite IH.
Qed.

Lemma header_get_set h k v : header_get (header_set h k v) k = v.
Proof. unfold header_get, header_set. by rewrite lookup_insert_eq. Qed.

Lemma header_get_set_ne h k k' v :
  CanonicalMIMEHeaderKey k <> CanonicalMIMEHeaderKey k' ->
  header_get (header_set h k v) k' = header_get h k'.
Proof. intros Hk. unfold header_get, header_set. by rewrite lookup_insert_ne. Qed.

Lemma rw_header_write_header code w : rw_header (write_header code w) = rw_header w.
Proof. unfold write_header. by destruct (rw_status w). Qed.

Lemma rw_header_write d w : rw_header (write d w) = rw_header w.
Proof. apply rw_header_write_header. Qed.

(** The Location http.Redirect sets. *)
Lemma Redirect_location r u code w :
  header_get (rw_header (Redirect r u code w)) "Location" = hexEscapeNonASCII (redirect_url r u).
Proof.
  unfold Redirect. destruct (String.eqb (req_method r) "GET");
    rewrite ?rw_header_write, rw_header_write_header; cbn [orb];
    [| destruct (String.eqb (req_method r) "HEAD")]; cbn [rw_header set_header];
    rewrite ?header_get_set_ne by (cbv; congruence); apply header_get_set.
Qed.

(** The Location of ServeMux's redirect to a cleaned path decodes, as
    url.Parse reads it, back to that path. *)
Lemma Redirect_location_cleanPath r p q code w :
  unescape_path (fst (split_query
    (header_get (rw_header (Redirect r (url_string (cleanPath p) q) code w)) "Location")))
  = Some (cleanPath p).
Proof.
  rewrite Redirect_location, redirect_url_cleanPath, hexEscapeNonASCII_app,
    (hexEscapeNonASCII_ascii (escape_path _)) by apply escape_path_ascii.
  rewrite split_query_escape_path.
  replace (fst (split_query _)) with "" by (by destruct (String.eqb q "")).
  rewrite string_app_nil_r. apply unescape_escape_path.
Qed.
