(* ===== verification/Json.v ===== *)
(** A reference JSON reader (RFC 8259) for the argument main.go sends to
    Cloud Workflows: string literals with their escapes, and an object
    with one member written without white space.  It is the reading the
    argument of line 140 is written for.  The round-trip theorem in
    Handlers uses it to say when string concatenation produces the
    intended object.  Escapes of the form \u are not decoded here (they
    are rejected); this does not affect the theorem, since any escape
    makes the decoded text shorter than the raw text. *)

From stdpp Require Import base strings list.
From Stdlib Require Import String Ascii ZArith Lia.
From S2P Require Import Prelude GoNet.

Local Open Scope string_scope.

Definition dquote : ascii := "034".
Definition backslash : ascii := "092".

(** The character the escape \e stands for. *)
Definition unescape (e : ascii) : option ascii :=
  if Ascii.eqb e dquote then Some dquote
  else if Ascii.eqb e backslash then Some backslash
  else if Ascii.eqb e "/" then Some "/"%char
  else if Ascii.eqb e "b" then Some "008"%char
  else if Ascii.eqb e "f" then Some "012"%char
  else if Ascii.eqb e "n" then Some "010"%char
  else if Ascii.eqb e "r" then Some "013"%char
  else if Ascii.eqb e "t" then Some "009"%char
  else None.

(** Characters below U+0020 must be escaped inside a string. *)
Definition is_control (c : ascii) : bool := (nat_of_ascii c <? 32)%nat.
Arguments is_control : simpl never.

(** The body of a string literal after its opening quote: the decoded
    text and what follows the closing quote. *)
Fixpoint scan_string (s : string) : option (string * string) :=
  match s with
  | EmptyString => None
  | String c s' =>
      if Ascii.eqb c dquote then Some ("", s')
      else if Ascii.eqb c backslash then
        match s' with
        | EmptyString => None
        | String e s'' =>
            match unescape e, scan_string s'' with
            | Some d, Some (v, r) => Some (String d v, r)
            | _, _ => None
            end
        end
      else if is_control c then None
      else match scan_string s' with
           | Some (v, r) => Some (String c v, r)
           | None => None
           end
  end.

(** An object of exactly one member, {"key":"value"}. *)
Definition decode_object1 (s : string) : option (string * string) :=
  match s with
  | String o (String q1 r1) =>
      if Ascii.eqb o "{" && Ascii.eqb q1 dquote then
        match scan_string r1 with
        | Some (k, String colon (String q2 r2)) =>
            if Ascii.eqb colon ":" && Ascii.eqb q2 dquote then
              match scan_string r2 with
              | Some (v, r) => if String.eqb r "}" then Some (k, v) else None
              | None => None
              end
            else None
        | _ => None
        end
      else None
  | _ => None
  end.

(** A character that may stand for itself inside a string literal. *)
Definition json_plain (c : ascii) : bool :=
  negb (Ascii.eqb c dquote) && negb (Ascii.eqb c backslash) && negb (is_control c).

Definition json_safe (s : string) : bool := all_bytes json_plain s.

(** * The string scanner *)

Lemma scan_string_length_aux n s v r :
  String.length s <= n ->
  scan_string s = Some (v, r) -> String.length v + String.length r < String.length s.
Proof.
  revert s v r. induction n as [|n IH]; intros s v r Hn.
  { destruct s; cbn in *; [done | lia]. }
  destruct s as [|c s]; cbn; [done|]. cbn in Hn.
  destruct (Ascii.eqb c dquote); [intros [= <- <-]; cbn; lia|].
  destruct (Ascii.eqb c backslash).
  - destruct s as [|e s']; [done|]. cbn in Hn.
    destruct (unescape e) as [d|]; [|done].
    destruct (scan_string s') as [[v' r']|] eqn:Hs; [|done]. intros [= <- <-].
    specialize (IH s' v' r' ltac:(lia) Hs). cbn. lia.
  - destruct (is_control c); [done|].
    destruct (scan_string s) as [[v' r']|] eqn:Hs; [|done]. intros [= <- <-].
    specialize (IH s v' r' ltac:(lia) Hs). cbn. lia.
Qed.

(** Each step of the scanner consumes at least one more character than
    it produces, and the closing quote is consumed too. *)
Lemma scan_string_length s v r :
  scan_string s = Some (v, r) -> String.length v + String.length r < String.length s.
Proof. apply scan_string_length_aux with (n := String.length s). lia. Qed.

(** A plain text followed by a quote is read back as itself. *)
Lemma scan_string_safe t rest :
  json_safe t = true -> scan_string (t ++ String dquote rest) = Some (t, rest).
Proof.
  induction t as [|c t IH]; cbn; [done|].
  unfold json_plain. intros [[[Hq%negb_true_iff Hb%negb_true_iff]%andb_prop
                               Hc%negb_true_iff]%andb_prop Ht]%andb_prop.
  rewrite Hq, Hb, Hc, IH by done. done.
Qed.

(** Conversely, a text read back as itself was plain. *)
Lemma scan_string_unsafe t rest :
  scan_string (t ++ String dquote rest) = Some (t, rest) -> json_safe t = true.
Proof.
  induction t as [|c t IH]; cbn; [done|].
  destruct (Ascii.eqb c dquote) eqn:Hq; [done|].
  destruct (Ascii.eqb c backslash) eqn:Hb.
  - intros H0. exfalso.
    destruct (t ++ String dquote rest) as [|e s'] eqn:Ht; [done|].
    destruct (unescape e) as [d|]; [|done].
    destruct (scan_string s') as [[v r]|] eqn:Hs; [|done].
    injection H0 as _ Hv Hr. subst.
    apply scan_string_length in Hs.
    apply (f_equal String.length) in Ht. rewrite string_length_app in Ht. cbn in *. lia.
  - destruct (is_control c) eqn:Hc; [done|].
    destruct (scan_string (t ++ String dquote rest)) as [[v r]|] eqn:Hs; [|done].
    intros [= -> ->]. unfold json_safe in *. cbn. unfold json_plain.
    rewrite Hq, Hb, Hc. cbn. by apply IH.
Qed.
