(* ===== verification/Jwks.v ===== *)
(** The data of main.go: the JWKS document [Jwks] and its key records
    [JSONWebKeys] (main.go lines 47-59), and the values that
    encoding/json leaves in a [map[string]interface{}] (a JWT header or
    its claims), with Go's interface-to-string comparison. *)

From stdpp Require Import base strings gmap list.
From Stdlib Require Import String ZArith.
From S2P Require Import Prelude.

Local Open Scope string_scope.

(** [type JSONWebKeys struct]: one key of the Auth0 key set. *)
Record JSONWebKeys := mkJSONWebKeys {
  Kty : string;
  Kid : string;
  Use : string;
  N : string;
  E : string;
  X5c : list string;
  X5t : list string
}.

(** [type Jwks struct { Keys []JSONWebKeys }]. *)
Record Jwks := mkJwks { Keys : list JSONWebKeys }.

(** The zero value [Jwks{}]: a nil key slice. *)
Definition jwks_zero : Jwks := mkJwks [].

(** A JSON value after decoding into [interface{}].  Numbers are float64
    in Go; the only use the program (through jwt-go) makes of them is
    [int64(f)], so [JNumber] keeps that integer.  Objects and arrays are
    never inspected and are kept opaque. *)
Inductive jvalue :=
  | JString (s : string)
  | JNumber (z : Z)
  | JBool (b : bool)
  | JNull
  | JComposite.

#[export] Instance jvalue_eq_dec : EqDecision jvalue.
Proof. solve_decision. Defined.

(** A decoded JSON object, [map[string]interface{}]. *)
Abbreviation JSONObject := (gmap string jvalue).

(** [m[k]]: a missing key yields the nil interface, as does JSON null;
    both are [None] here. *)
Definition iface_lookup (m : JSONObject) (k : string) : option jvalue :=
  match m !! k with
  | Some JNull => None
  | v => v
  end.

(** [v == s] for an [interface{}] [v] and a string [s]: true only when
    the dynamic type of [v] is string and the values are equal. *)
Definition iface_eq_string (v : option jvalue) (s : string) : bool :=
  match v with
  | Some (JString s') => String.eqb s' s
  | _ => false
  end.

(** [v.(string)] in its comma-ok form. *)
Definition iface_as_string (v : option jvalue) : option string :=
  match v with
  | Some (JString s) => Some s
  | _ => None
  end.

Lemma iface_eq_string_true v s :
  iface_eq_string v s = true <-> v = Some (JString s).
Proof.
  destruct v as [[s'| | | |]|]; cbn; split; try done.
  - by intros ->%String.eqb_eq.
  - intros [= ->]. apply String.eqb_refl.
Qed.

Lemma iface_eq_string_as_string v s :
  iface_eq_string v s = true <-> iface_as_string v = Some s.
Proof.
  rewrite iface_eq_string_true.
  destruct v as [[s'| | | |]|]; cbn; split; congruence.
Qed.
