(* ===== verification/JwtGo.v ===== *)
(** github.com/dgrijalva/jwt-go (v3) as main.go uses it: the signing
    method registry ([GetSigningMethod]), [strings.Split] on '.',
    [ParseUnverified], [MapClaims.Valid] and [Parse] with a key function,
    with [ValidationError]'s bit set.  Segment decoding (base64url then
    JSON), PEM/RSA key parsing and the signature primitives are the
    typeclass [JoseCodec].  Its laws are the type assertions on the key
    that every jwt-go [Verify] performs. *)

From stdpp Require Import base strings gmap list.
From Stdlib Require Import String Ascii ZArith.
From S2P Require Import Prelude Jwks.

Local Open Scope string_scope.
Local Open Scope Z_scope.

(** * ValidationError (errors.go): [Errors] is a bit set, [1 << iota]. *)

Definition ValidationErrorMalformed : Z := Z.shiftl 1 0.
Definition ValidationErrorUnverifiable : Z := Z.shiftl 1 1.
Definition ValidationErrorSignatureInvalid : Z := Z.shiftl 1 2.
Definition ValidationErrorExpired : Z := Z.shiftl 1 4.
Definition ValidationErrorIssuedAt : Z := Z.shiftl 1 5.
Definition ValidationErrorNotValidYet : Z := Z.shiftl 1 7.

Record ValidationError := mkVErr { ve_inner : string; ve_errors : Z }.

(** [valid] of a [*ValidationError]: no bit set. *)
Definition ve_valid (e : ValidationError) : bool := ve_errors e =? 0.

(** * Signing methods and their registry *)

Inductive Hash := SHA256 | SHA384 | SHA512.

Inductive SigningMethod :=
  | SigningMethodHMAC (h : Hash)
  | SigningMethodRSA (h : Hash)
  | SigningMethodECDSA (h : Hash)
  | SigningMethodRSAPSS (h : Hash)
  | SigningMethodNone.

(** [GetSigningMethod]: the methods registered by the package's init
    functions, keyed by their "alg" name. *)
Definition GetSigningMethod (alg : string) : option SigningMethod :=
  if String.eqb alg "HS256" then Some (SigningMethodHMAC SHA256)
  else if String.eqb alg "HS384" then Some (SigningMethodHMAC SHA384)
  else if String.eqb alg "HS512" then Some (SigningMethodHMAC SHA512)
  else if String.eqb alg "RS256" then Some (SigningMethodRSA SHA256)
  else if String.eqb alg "RS384" then Some (SigningMethodRSA SHA384)
  else if String.eqb alg "RS512" then Some (SigningMethodRSA SHA512)
  else if String.eqb alg "ES256" then Some (SigningMethodECDSA SHA256)
  else if String.eqb alg "ES384" then Some (SigningMethodECDSA SHA384)
  else if String.eqb alg "ES512" then Some (SigningMethodECDSA SHA512)
  else if String.eqb alg "PS256" then Some (SigningMethodRSAPSS SHA256)
  else if String.eqb alg "PS384" then Some (SigningMethodRSAPSS SHA384)
  else if String.eqb alg "PS512" then Some (SigningMethodRSAPSS SHA512)
  else if String.eqb alg "none" then Some SigningMethodNone
  else None.

(** The type assertion on [token.Method] against [*jwt.SigningMethodRSA]: only RS256/384/512 have this
    dynamic type; PS* is [*SigningMethodRSAPSS], a different type. *)
Definition is_SigningMethodRSA (m : SigningMethod) : bool :=
  match m with SigningMethodRSA _ => true | _ => false end.

(** * Keys passed through [interface{}] *)

(** [KBytes] is a [[]byte]; [KRsa] a non-nil [*rsa.PublicKey]; [KRsaNil]
    a nil [*rsa.PublicKey] (what a failed [ParseRSAPublicKeyFromPEM]
    returns); [KNil] the nil interface. *)
Inductive Key (P : Type) :=
  | KBytes (b : string)
  | KRsa (p : P)
  | KRsaNil
  | KNil.
Arguments KBytes {P} b.
Arguments KRsa {P} p.
Arguments KRsaNil {P}.
Arguments KNil {P}.

(** The type assertion each method's [Verify] makes on its key (RSA
    and RSA-PSS decode the signature first; a bad one is an error too): HMAC wants [[]byte]; RSA and RSA-PSS want
    [*rsa.PublicKey]; ECDSA wants [*ecdsa.PublicKey], which the program
    never supplies; "none" wants an unexported magic constant. *)
Definition key_fits {P} (m : SigningMethod) (k : Key P) : bool :=
  match m, k with
  | SigningMethodHMAC _, KBytes _ => true
  | (SigningMethodRSA _ | SigningMethodRSAPSS _), (KRsa _ | KRsaNil) => true
  | _, _ => false
  end.

(** * The codec interface *)

Class JoseCodec := {
  (** [DecodeSegment] then [json.Unmarshal] into [map[string]interface{}]. *)
  decode_header : string -> option JSONObject;
  (** [DecodeSegment] then decoding into [MapClaims]. *)
  decode_claims : string -> option JSONObject;
  PublicKey : Type;
  (** [jwt.ParseRSAPublicKeyFromPEM]; [None] is the (nil, err) answer. *)
  parse_rsa_pem : string -> option PublicKey;
  (** [m.Verify(signingString, signature, key)]: [Some true] is a nil
      error, [Some false] an error, [None] a runtime panic. *)
  sig_verify : SigningMethod -> string -> string -> Key PublicKey -> option bool;
  sig_verify_key_type : forall m ss sg k,
    key_fits m k = false -> sig_verify m ss sg k = Some false;
  (** Only the nil [*rsa.PublicKey] can make a [Verify] panic (RSA's
      [Verify] decodes the signature first, so even that key panics only
      on a well-formed signature, which is left to the instance). *)
  sig_verify_no_panic : forall m ss sg k,
    k <> KRsaNil -> sig_verify m ss sg k <> None
}.

(** * MapClaims.Valid (map_claims.go, claims.go) *)

Definition claim_int (c : JSONObject) (k : string) : option Z :=
  match c !! k with Some (JNumber z) => Some z | _ => None end.

Definition verifyExp (exp now : Z) (required : bool) : bool :=
  if exp =? 0 then negb required else now <=? exp.
Definition verifyIat (iat now : Z) (required : bool) : bool :=
  if iat =? 0 then negb required else iat <=? now.
Definition verifyNbf (nbf now : Z) (required : bool) : bool :=
  if nbf =? 0 then negb required else nbf <=? now.

(** [VerifyExpiresAt] and the like: a claim that is absent or not a
    number passes when it is not required. *)
Definition verify_claim (f : Z -> Z -> bool -> bool)
    (c : JSONObject) (k : string) (now : Z) (required : bool) : bool :=
  match claim_int c k with Some v => f v now required | None => negb required end.

(** The error bits of [MapClaims.Valid] at Unix time [now]. *)
Definition map_claims_valid (c : JSONObject) (now : Z) : Z :=
  let e := 0 in
  let e := if verify_claim verifyExp c "exp" now false then e
           else Z.lor e ValidationErrorExpired in
  let e := if verify_claim verifyIat c "iat" now false then e
           else Z.lor e ValidationErrorIssuedAt in
  if verify_claim verifyNbf c "nbf" now false then e
  else Z.lor e ValidationErrorNotValidYet.

Lemma lor_nonzero_l a b : a <> 0 -> Z.lor a b <> 0.
Proof. rewrite Z.lor_eq_0_iff. intros Ha [? _]. done. Qed.

(** An "exp" claim in the past makes [MapClaims.Valid] fail. *)
Lemma map_claims_valid_expired c now :
  verify_claim verifyExp c "exp" now false = false -> map_claims_valid c now <> 0.
Proof.
  intros He. unfold map_claims_valid. rewrite He.
  assert (Z.lor 0 ValidationErrorExpired <> 0) as H16 by done.
  repeat case_match; auto using lor_nonzero_l.
Qed.

(** * Token and ParseUnverified (parser.go) *)

(** [type Token struct]: Raw, Method, Header, Claims, Signature, Valid. *)
Record Token := mkToken {
  tok_raw : string;
  tok_method : option SigningMethod;
  tok_header : JSONObject;
  tok_claims : JSONObject;
  tok_signature : string;
  tok_valid : bool
}.

Section Parser.
  Context `{JoseCodec}.

  (** The answer of [ParseUnverified]: either an error (with the token
      built so far, nil when the segment count is wrong), or the token,
      its method and the three segments. *)
Inductive unverified :=
    | PUErr (tk : option Token) (e : ValidationError)
    | PUOk (tk : Token) (m : SigningMethod) (p0 p1 p2 : string).

Definition malformed (msg : string) := mkVErr msg ValidationErrorMalformed.

Definition ParseUnverified (s : string) : unverified :=
    match split_on "." s with
    | [p0; p1; p2] =>
        match decode_header p0 with
        | None => PUErr (Some (mkToken s None ∅ ∅ "" false)) (malformed "header")
        | Some h =>
            match decode_claims p1 with
            | None => PUErr (Some (mkToken s None h ∅ "" false)) (malformed "claims")
            | Some c =>
                let tk := mkToken s None h c "" false in
                match iface_as_string (iface_lookup h "alg") with
                | None => PUErr (Some tk)
                    (mkVErr "signing method (alg) is unspecified." ValidationErrorUnverifiable)
                | Some alg =>
                    match GetSigningMethod alg with
                    | None => PUErr (Some tk)
                        (mkVErr "signing method (alg) is unavailable." ValidationErrorUnverifiable)
                    | Some m => PUOk (mkToken s (Some m) h c "" false) m p0 p1 p2
                    end
                end
            end
        end
    | _ => PUErr None (malformed "token contains an invalid number of segments")
    end.

  (** A key function, taking a [*Token] and answering [(interface{}, error)]. *)
Definition Keyfunc := Token -> Key PublicKey + string.

  (** [jwt.Parse(tokenString, keyFunc)] at Unix time [now]: the token (nil
      only for a wrong segment count) and the error.  The claims are
      validated, then the signature verified; [Valid] is set only when no
      error bit is. *)
Definition Parse (now : Z) (s : string) (kf : Keyfunc)
      : res (option Token * option ValidationError) :=
    match ParseUnverified s with
    | PUErr tk e => Ok (tk, Some e)
    | PUOk tk m p0 p1 p2 =>
        match kf tk with
        | inr err => Ok (Some tk, Some (mkVErr err ValidationErrorUnverifiable))
        | inl key =>
            let e := map_claims_valid (tok_claims tk) now in
            let tk := mkToken (tok_raw tk) (tok_method tk) (tok_header tk)
                              (tok_claims tk) p2 false in
            match sig_verify m (p0 ++ "." ++ p1) p2 key with
            | None => Exit (Panic "runtime error: invalid memory address or nil pointer dereference")
            | Some ok =>
                let e := if ok then e else Z.lor e ValidationErrorSignatureInvalid in
                if e =? 0 then
                  Ok (Some (mkToken (tok_raw tk) (tok_method tk) (tok_header tk)
                              (tok_claims tk) p2 true), None)
                else Ok (Some tk, Some (mkVErr "" e))
            end
        end
    end.
End Parser.

(** * What a successful or failed parse reveals *)

Section ParserFacts.
  Context `{JoseCodec}.

Lemma ParseUnverified_ok_token s tk m p0 p1 p2 :
    ParseUnverified s = PUOk tk m p0 p1 p2 ->
    tok_method tk = Some m /\ tok_valid tk = false.
  Proof.
    unfold ParseUnverified.
    repeat (case_match; try discriminate). intros Heq; inversion Heq; subst; auto.
  Qed.

  (** A key function that errors makes [Parse] answer the unverified
      token with an [Unverifiable] error, before any signature check. *)
Lemma Parse_keyfunc_error now s kf tk m p0 p1 p2 err :
    ParseUnverified s = PUOk tk m p0 p1 p2 -> kf tk = inr err ->
    Parse now s kf = Ok (Some tk, Some (mkVErr err ValidationErrorUnverifiable)).
  Proof. unfold Parse. by intros -> ->. Qed.

  (** An error of [ParseUnverified] is the answer of [Parse]. *)
Lemma Parse_unverified_error now s kf tk e :
    ParseUnverified s = PUErr tk e -> Parse now s kf = Ok (tk, Some e).
  Proof. unfold Parse. by intros ->. Qed.

Lemma lor_signature_invalid_nonzero e :
    (Z.lor e ValidationErrorSignatureInvalid =? 0) = false.
  Proof.
    apply Z.eqb_neq. rewrite Z.lor_eq_0_iff.
    by intros [_ ?].
  Qed.

  (** [Parse] succeeds only if the key function gave a key and the
      method's [Verify] accepted the signature with it. *)
Lemma Parse_ok_inv now s kf tk :
    Parse now s kf = Ok (Some tk, None) ->
    exists tk0 m p0 p1 p2 key,
      ParseUnverified s = PUOk tk0 m p0 p1 p2 /\ kf tk0 = inl key /\
      sig_verify m (p0 ++ "." ++ p1) p2 key = Some true /\ tok_valid tk = true.
  Proof.
    unfold Parse.
    destruct (ParseUnverified s) as [tk0 e|tk0 m p0 p1 p2]; [done|].
    destruct (kf tk0) as [key|err] eqn:Hkf; [|done].
    destruct (sig_verify m _ p2 key) as [[|]|] eqn:Hv; [|rewrite lor_signature_invalid_nonzero|];
      [case_match|..]; try done.
    intros [= <-]. by exists tk0, m, p0, p1, p2, key.
  Qed.

  (** Hence the key was of the type the method asserts. *)
Lemma Parse_ok_key_fits now s kf tk :
    Parse now s kf = Ok (Some tk, None) ->
    exists tk0 m p0 p1 p2 key,
      ParseUnverified s = PUOk tk0 m p0 p1 p2 /\ kf tk0 = inl key /\
      key_fits m key = true.
  Proof.
    intros (tk0 & m & p0 & p1 & p2 & key & Hu & Hk & Hv & _)%Parse_ok_inv.
    exists tk0, m, p0, p1, p2, key. do 2 (split; [done|]).
    destruct (key_fits m key) eqn:Hf; [done|].
    by rewrite sig_verify_key_type in Hv.
  Qed.

  (** Claims that [MapClaims.Valid] rejects make [Parse] fail, whatever
      the signature, unless the key is a nil RSA key (then it panics). *)
Lemma Parse_claims_invalid now s kf tk m p0 p1 p2 key :
    ParseUnverified s = PUOk tk m p0 p1 p2 -> kf tk = inl key -> key <> KRsaNil ->
    map_claims_valid (tok_claims tk) now <> 0 ->
    exists tk' e, Parse now s kf = Ok (Some tk', Some e).
  Proof.
    unfold Parse. intros -> -> Hk Hc.
    destruct (sig_verify m _ p2 key) as [ok|] eqn:Hv; [|by apply sig_verify_no_panic in Hv].
    destruct ok; [rewrite (proj2 (Z.eqb_neq _ _) Hc) | rewrite lor_signature_invalid_nonzero];
      eauto.
  Qed.

  (** A key of the wrong type makes [Parse] fail with the
      [SignatureInvalid] bit, whatever the claims. *)
Lemma Parse_wrong_key_type now s kf tk m p0 p1 p2 key :
    ParseUnverified s = PUOk tk m p0 p1 p2 -> kf tk = inl key ->
    key_fits m key = false ->
    exists tk' e, Parse now s kf = Ok (Some tk', Some e).
  Proof.
    unfold Parse. intros -> -> Hf.
    rewrite sig_verify_key_type by done. rewrite lor_signature_invalid_nonzero.
    eauto.
  Qed.
End ParserFacts.

(** * A concrete codec, for evaluating the models on sample tokens *)

(** Header segments are "alg" or "alg:kid"; the claims segment "expired"
    holds an "exp" of 1000 (long past), any other the empty object; a PEM string is its own public key; a signature is valid when
    it equals the key. *)
Definition toy_header (seg : string) : option JSONObject :=
  match split_on ":" seg with
  | [alg] => Some {[ "alg" := JString alg ]}
  | [alg; kid] => Some (<[ "kid" := JString kid ]> {[ "alg" := JString alg ]})
  | _ => None
  end.

Definition toy_verify (m : SigningMethod) (ss sg : string) (k : Key string) : option bool :=
  if key_fits m k then
    match k with
    | KBytes b => Some (String.eqb sg b)
    | KRsa p => Some (String.eqb sg p)
    | KRsaNil => None
    | KNil => Some false
    end
  else Some false.

#[refine] Instance toy_codec : JoseCodec := {
  decode_header := toy_header;
  decode_claims := fun seg => if String.eqb seg "expired" then Some {[ "exp" := JNumber 1000 ]}
                              else Some ∅;
  PublicKey := string;
  parse_rsa_pem := fun pem => Some pem;
  sig_verify := toy_verify
}.
Proof.
  - intros m ss sg k Hf. unfold toy_verify. by rewrite Hf.
  - intros m ss sg k Hk. unfold toy_verify. by repeat case_match.
Defined.
