(* ===== verification/Env.v ===== *)
(** The process state and the external world of main.go.  [Proc] holds
    the trace of calls to external services, in the order the program
    makes them, and the HTTP response being written.  [World] gives the
    answer of each external collaborator: the Auth0 HTTPS endpoint and
    the JSON decoder, the Cloud Workflows client, the idtoken client,
    the downstream Cloud Run service, and the clock jwt-go reads.
    [M] is the Go process monad over [Proc]. *)

From stdpp Require Import base strings gmap list.
From Stdlib Require Import String ZArith.
From S2P Require Import Prelude GoNet Jwks.

Local Open Scope string_scope.

(** The external calls the program makes. *)
Inductive event :=
  | EvHttpGet (url : string)                        (** [http.Get(url)] *)
  | EvNewExecutionsClient                           (** [executions.NewClient(ctx)] *)
  | EvCreateExecution (parent argument : string)    (** [client.CreateExecution] *)
  | EvCloseExecutionsClient                         (** deferred [client.Close()] *)
  | EvNewIdTokenClient (audience : string)          (** [idtoken.NewClient(ctx, aud)] *)
  | EvClientDo (method url : string) (hdr : Header).  (** [client.Do(req)] *)

(** An HTTP response as the client sees it. *)
Record HttpResponse := mkHttpResponse { resp_status : Z; resp_body : string }.

(** The answers of the outside world.  Errors are their messages (the
    program only formats them with "%v"). *)
Record World := mkWorld {
  (** [time.Now().Unix()] while the request is served. *)
  w_now : Z;
  (** [http.Get]: an error, or the response. *)
  w_http_get : string -> string + HttpResponse;
  (** [json.NewDecoder(body).Decode(&jwks)] on a zero [Jwks]: what it
      filled in, and its error.  Decode may fill part of the value and
      still report an error (a type mismatch deep in the document). *)
  w_decode_jwks : string -> Jwks * option string;
  (** [executions.NewClient]: its error, if any. *)
  w_new_executions_client : option string;
  (** [client.CreateExecution(parent, argument)]: an error, or the "%v"
      rendering of the returned [*Execution]. *)
  w_create_execution : string -> string -> string + string;
  (** [idtoken.NewClient(ctx, audience)]: its error, if any. *)
  w_new_idtoken_client : string -> option string;
  (** [client.Do(req)] for a request's method, URL and header. *)
  w_client_do : string -> string -> Header -> string + HttpResponse
}.

Record Proc := mkProc {
  p_trace : list event;
  p_resp : ResponseWriter
}.

Abbreviation M := (go Proc).

Definition proc_init : Proc := mkProc [] rw_init.

(** Record an external call. *)
Definition emit (ev : event) : M unit :=
  modify (fun p => mkProc (p_trace p ++ [ev])%list (p_resp p)).

(** Act on the ResponseWriter. *)
Definition respond (f : ResponseWriter -> ResponseWriter) : M unit :=
  modify (fun p => mkProc (p_trace p) (f (p_resp p))).

(** The process state after [evs] more calls. *)
Definition with_events (p : Proc) (evs : list event) : Proc :=
  mkProc (p_trace p ++ evs)%list (p_resp p).

Lemma with_events_nil p : with_events p [] = p.
Proof. destruct p. unfold with_events. cbn. by rewrite app_nil_r. Qed.

Lemma emit_run ev p : emit ev p = (Ok tt, with_events p [ev]).
Proof. done. Qed.

Lemma with_events_app p evs1 evs2 :
  with_events (with_events p evs1) evs2 = with_events p (evs1 ++ evs2)%list.
Proof. unfold with_events. cbn. by rewrite app_assoc. Qed.

#[export] Hint Rewrite emit_run with_events_app with_events_nil : go_rw.
