(* ===== verification/KeySet.v ===== *)
(** The key-set fetcher and the key resolver of [verifyToken] (main.go
    lines 72-94): the GET of the Auth0 JWKS, its JSON decoding, the loop
    over the keys that builds the PEM certificate, and the "" check.  The
    spec's resolver (section 4.2: the first key whose kid matches;
    a key with no certificate is not found) is [spec_resolve].  The
    refinement theorem says when the code agrees with it. *)

From stdpp Require Import base strings gmap list.
From Stdlib Require Import String Ascii ZArith.
From S2P Require Import Prelude GoNet Jwks Env.

Local Open Scope string_scope.
Local Open Scope go_scope.

(** [const DomainName] (main.go line 27). *)
Definition DomainName := "dev-kjqwuq76z8suldgw.us.auth0.com".

Definition jwks_url := "https://" ++ DomainName ++ "/.well-known/jwks.json".

Definition newline := String "010"%char "".

(** The PEM text built at line 89. *)
Definition pem_wrap (x5c0 : string) : string :=
  "-----BEGIN CERTIFICATE-----" ++ newline ++ x5c0 ++ newline
  ++ "-----END CERTIFICATE-----".

(** The message of the runtime panic of [X5c[0]] on an empty slice. *)
Definition index_out_of_range := "runtime error: index out of range [0] with length 0".

(** Lines 87-91: every key is visited, no [break]; each match overwrites
    [cert], so the last matching key wins, and [X5c[0]] panics on a
    matching key whose x5c is empty. *)
Fixpoint find_cert (kid : option jvalue) (keys : list JSONWebKeys) (cert : string)
    : res string :=
  match keys with
  | [] => Ok cert
  | k :: ks =>
      if iface_eq_string kid (Kid k) then
        match X5c k with
        | [] => Exit (Panic index_out_of_range)
        | c0 :: _ => find_cert kid ks (pem_wrap c0)
        end
      else find_cert kid ks cert
  end.

Section Fetch.
  Variable w : World.

  (** Lines 74-86: [http.Get] ends the process on a transport error; the
      error of [Decode] is dropped (lines 84-86 are an empty block). *)
Definition fetch_jwks : M Jwks :=
    emit (EvHttpGet jwks_url) ;;
    match w_http_get w jwks_url with
    | inl _ => exit (Fatal "公開鍵を取得失敗")
    | inr resp => ret (fst (w_decode_jwks w (resp_body resp)))
    end.
End Fetch.

(** Lines 73 and 87-94: [cert] starts as "", the loop runs, and "" after
    it ends the process. *)
Definition resolve_cert (kid : option jvalue) (jwks : Jwks) : M string :=
  cert <- of_res (find_cert kid (Keys jwks) "") ;;
  if String.eqb cert "" then exit (Fatal "Unable to find appropriate key.")
  else ret cert.

(** The spec's resolver: the first key whose identifier equals [kid],
    wrapped from its first certificate; [None] is [KeyNotFoundError]. *)
Definition spec_resolve (kid : string) (keys : list JSONWebKeys) : option string :=
  match list_find (fun k => Kid k = kid) keys with
  | Some (_, k) => match X5c k with c0 :: _ => Some (pem_wrap c0) | [] => None end
  | None => None
  end.

(** * The resolver loop *)

Lemma find_cert_app kid l1 l2 c :
  find_cert kid (l1 ++ l2) c =
  match find_cert kid l1 c with Ok c' => find_cert kid l2 c' | Exit e => Exit e end.
Proof.
  revert c. induction l1 as [|k l1 IH]; intros c; [done|]. cbn.
  case_match; [case_match|]; auto.
Qed.

Lemma find_cert_no_match kid l c :
  (forall k, k ∈ l -> iface_eq_string kid (Kid k) = false) -> find_cert kid l c = Ok c.
Proof.
  revert c. induction l as [|k l IH]; intros c Hl; [done|]. cbn.
  rewrite (Hl k) by set_solver. apply IH. set_solver.
Qed.

(** Without a matching key of empty x5c, the loop does not panic. *)
Lemma find_cert_total kid l c :
  (forall k, k ∈ l -> iface_eq_string kid (Kid k) = true -> X5c k <> []) ->
  exists c', find_cert kid l c = Ok c'.
Proof.
  revert c. induction l as [|k l IH]; intros c Hl; [eauto|]. cbn.
  destruct (iface_eq_string kid (Kid k)) eqn:Hm.
  - destruct (X5c k) as [|c0 cs] eqn:Hx; [by exfalso; apply (Hl k); set_solver|].
    apply IH. set_solver.
  - apply IH. set_solver.
Qed.

(** The result of the loop is its initial value or a PEM text. *)
Lemma find_cert_result kid l c c' :
  find_cert kid l c = Ok c' -> c' = c \/ exists x, c' = pem_wrap x.
Proof.
  revert c. induction l as [|k l IH]; intros c; cbn; [intros [= ->]; auto|].
  case_match; [case_match|]; [done| |].
  - intros [-> | [x ->]]%IH; eauto.
  - intros [-> | [x ->]]%IH; eauto.
Qed.

(** A key set with no key under [kid] leaves [cert] as it is. *)
Lemma find_cert_skip kid l c :
  (forall k, k ∈ l -> Kid k <> kid) -> find_cert (Some (JString kid)) l c = Ok c.
Proof.
  intros Hl. apply find_cert_no_match. intros k Hin.
  apply not_true_iff_false. rewrite iface_eq_string_true. intros [= Hm].
  by apply (Hl k).
Qed.

(** One step of the loop on a key under [kid] with a certificate. *)
Lemma find_cert_match kid k l c c0 cs :
  Kid k = kid -> X5c k = c0 :: cs ->
  find_cert (Some (JString kid)) (k :: l) c = find_cert (Some (JString kid)) l (pem_wrap c0).
Proof. intros Hk Hx. cbn. by rewrite Hk, String.eqb_refl, Hx. Qed.

Lemma pem_wrap_inj x y : pem_wrap x = pem_wrap y -> x = y.
Proof.
  unfold pem_wrap.
  intros Hxy%string_app_inv_l%string_app_inv_l. by apply string_app_inv_r in Hxy.
Qed.

Lemma pem_wrap_nonempty x : pem_wrap x <> "".
Proof. done. Qed.

#[global] Arguments pem_wrap : simpl never.

(** A loop that ends with "" started from "" and met no matching key. *)
Lemma find_cert_empty_inv kid l c :
  find_cert kid l c = Ok "" ->
  c = "" /\ forall k, k ∈ l -> iface_eq_string kid (Kid k) = false.
Proof.
  revert c. induction l as [|k l IH]; intros c Hr; cbn in Hr.
  - injection Hr as ->. split; [done|]. intros k Hin. by apply not_elem_of_nil in Hin.
  - destruct (iface_eq_string kid (Kid k)) eqn:Hm.
    + destruct (X5c k) as [|c0 cs]; [done|].
      by destruct (IH _ Hr) as [?%pem_wrap_nonempty _].
    + destruct (IH _ Hr) as [-> Hl]. split; [done|].
      intros k' [-> | Hin]%elem_of_cons; auto.
Qed.

#[export] Hint Resolve pem_wrap_nonempty : go_run.

(** * The fetcher and the "" check as steps of the process *)

Lemma fetch_jwks_ok w p resp :
  w_http_get w jwks_url = inr resp ->
  fetch_jwks w p = (Ok (fst (w_decode_jwks w (resp_body resp))), with_events p [EvHttpGet jwks_url]).
Proof. intros Hg. unfold fetch_jwks. go_step. by rewrite Hg. Qed.

(** The fetch makes exactly one external call, and writes nothing. *)
Lemma fetch_jwks_state w p : snd (fetch_jwks w p) = with_events p [EvHttpGet jwks_url].
Proof. unfold fetch_jwks. go_step. by destruct (w_http_get w jwks_url). Qed.

Lemma resolve_cert_found kid jwks cert p :
  find_cert kid (Keys jwks) "" = Ok cert -> cert <> "" ->
  resolve_cert kid jwks p = (Ok cert, p).
Proof.
  intros Hf Hne. unfold resolve_cert. go_step. rewrite Hf.
  by destruct (String.eqb_spec cert "").
Qed.

(** The resolution makes no external call. *)
Lemma resolve_cert_state kid jwks p : snd (resolve_cert kid jwks p) = p.
Proof.
  unfold resolve_cert. go_step.
  destruct (find_cert kid (Keys jwks) "") as [c|e]; [|done]. by case_match.
Qed.

(** * Properties of the key resolver *)

(** C6: the resolver returns the certificate of the LAST key whose kid
    equals the token's: a later matching key overrides an earlier one
    (no [break] at line 90), provided no earlier match has an empty x5c. *)
Theorem find_cert_last_match kid l1 k l2 c0 cs :
  Kid k = kid -> X5c k = c0 :: cs ->
  (forall k', k' ∈ l1 -> Kid k' = kid -> X5c k' <> []) ->
  (forall k', k' ∈ l2 -> Kid k' <> kid) ->
  find_cert (Some (JString kid)) (l1 ++ k :: l2) "" = Ok (pem_wrap c0).
Proof.
  intros Hk Hx Hl1 Hl2. rewrite find_cert_app.
  destruct (find_cert_total (Some (JString kid)) l1 "") as [c' ->].
  { intros k' Hin Hm%iface_eq_string_true. injection Hm as Hm. by apply Hl1. }
  rewrite (find_cert_match _ _ _ _ c0 cs) by done. by apply find_cert_skip.
Qed.

Example find_cert_last_match_witness :
  let k1 := mkJSONWebKeys "RSA" "k" "sig" "n1" "AQAB" ["CERT1"] [] in
  let k2 := mkJSONWebKeys "RSA" "k" "sig" "n2" "AQAB" ["CERT2"] [] in
  Kid k2 = "k" /\
  find_cert (Some (JString "k")) ([k1] ++ k2 :: []) "" = Ok (pem_wrap "CERT2").
Proof.
  cbn zeta. split; [done|].
  apply find_cert_last_match with (cs := []); try done.
  - intros k' ->%list_elem_of_singleton _. done.
  - intros k' Hin. by apply not_elem_of_nil in Hin.
Defined.

(** C9: the first matching key with an empty x5c makes [X5c[0]] panic,
    even when a later key with the same kid has a certificate. *)
Theorem find_cert_empty_x5c_panics kid l1 k l2 c :
  (forall k', k' ∈ l1 -> Kid k' <> kid) -> Kid k = kid -> X5c k = [] ->
  find_cert (Some (JString kid)) (l1 ++ k :: l2) c = Exit (Panic index_out_of_range).
Proof.
  intros Hl1 Hk Hx. rewrite find_cert_app, find_cert_skip by done.
  cbn. by rewrite Hk, String.eqb_refl, Hx.
Qed.

Example find_cert_empty_x5c_panics_witness :
  let k1 := mkJSONWebKeys "RSA" "k" "sig" "n1" "AQAB" [] [] in
  let k2 := mkJSONWebKeys "RSA" "k" "sig" "n2" "AQAB" ["CERT2"] [] in
  Kid k1 = "k" /\ X5c k1 = [] /\
  find_cert (Some (JString "k")) ([] ++ k1 :: [k2]) "" = Exit (Panic index_out_of_range).
Proof.
  cbn zeta. split; [done|]. split; [done|].
  apply find_cert_empty_x5c_panics; try done.
  intros k' Hin. by apply not_elem_of_nil in Hin.
Defined.

(** C10: the "" test at line 92 is sound: the loop leaves [cert] empty
    exactly when no key's kid equals the token header's "kid" (as a
    string); a match always leaves a non-empty PEM text. *)
Theorem find_cert_empty_iff kid l :
  find_cert kid l "" = Ok "" <-> (forall k, k ∈ l -> iface_eq_string kid (Kid k) = false).
Proof.
  split; [|apply find_cert_no_match].
  by intros [_ ?]%find_cert_empty_inv.
Qed.

(** C7: refinement of the spec's resolver.  When the key identifiers of
    the set are pairwise distinct and every key has a certificate, the
    loop computes the spec's answer, [KeyNotFoundError] being "". *)
Theorem find_cert_refines_spec kid keys :
  NoDup (Kid <$> keys) -> (forall k, k ∈ keys -> X5c k <> []) ->
  find_cert (Some (JString kid)) keys "" = Ok (default "" (spec_resolve kid keys)).
Proof.
  unfold spec_resolve. induction keys as [|k keys IH]; intros Hnd Hx; [done|].
  rewrite fmap_cons in Hnd. apply NoDup_cons in Hnd as [Hnin Hnd].
  cbn. destruct (String.eqb_spec (Kid k) kid) as [Hk|Hk].
  - subst kid. rewrite decide_True, String.eqb_refl by done. cbn.
    destruct (X5c k) as [|c0 cs] eqn:Hc; [by exfalso; apply (Hx k); set_solver|].
    apply find_cert_skip. intros k' Hin Hm.
    apply Hnin, list_elem_of_fmap. exists k'. split; [congruence|done].
  - rewrite decide_False by done.
    replace (kid =? Kid k) with false by (symmetry; apply String.eqb_neq; congruence).
    rewrite IH; [|done|set_solver]. by destruct (list_find _ keys) as [[i k']|].
Qed.

Example find_cert_refines_spec_witness :
  let keys := [mkJSONWebKeys "RSA" "a" "sig" "n1" "AQAB" ["CA"] [];
               mkJSONWebKeys "RSA" "b" "sig" "n2" "AQAB" ["CB"] []] in
  NoDup (Kid <$> keys) /\ (forall k, k ∈ keys -> X5c k <> []) /\
  find_cert (Some (JString "b")) keys "" = Ok (default "" (spec_resolve "b" keys)).
Proof.
  cbn zeta.
  assert (Hnd : NoDup (Kid <$> [mkJSONWebKeys "RSA" "a" "sig" "n1" "AQAB" ["CA"] [];
               mkJSONWebKeys "RSA" "b" "sig" "n2" "AQAB" ["CB"] []])).
  { apply (bool_decide_unpack _). by vm_compute. }
  assert (Hx : forall k, k ∈ [mkJSONWebKeys "RSA" "a" "sig" "n1" "AQAB" ["CA"] [];
               mkJSONWebKeys "RSA" "b" "sig" "n2" "AQAB" ["CB"] []] -> X5c k <> []).
  { intros k Hin. apply elem_of_cons in Hin as [-> | ->%list_elem_of_singleton]; done. }
  split; [exact Hnd|]. split; [exact Hx|].
  exact (find_cert_refines_spec "b" _ Hnd Hx).
Defined.

(** C8: the refinement fails without distinct identifiers.  Whenever
    two keys [k1] before [k2] share the token's kid and no other key has
    it, the spec resolves [k1]'s certificate and the code [k2]'s, and the
    two answers differ as soon as the certificates do. *)
Theorem find_cert_duplicate_kid_diverges kid (l1 l2 l3 : list JSONWebKeys) k1 k2 c1 cs1 c2 cs2 :
  (forall k, k ∈ (l1 ++ l2 ++ l3)%list -> Kid k <> kid) ->
  Kid k1 = kid -> Kid k2 = kid -> X5c k1 = c1 :: cs1 -> X5c k2 = c2 :: cs2 ->
  spec_resolve kid (l1 ++ k1 :: l2 ++ k2 :: l3) = Some (pem_wrap c1) /\
  find_cert (Some (JString kid)) (l1 ++ k1 :: l2 ++ k2 :: l3) "" = Ok (pem_wrap c2) /\
  (c1 <> c2 -> find_cert (Some (JString kid)) (l1 ++ k1 :: l2 ++ k2 :: l3) ""
                 <> Ok (default "" (spec_resolve kid (l1 ++ k1 :: l2 ++ k2 :: l3)))).
Proof.
  intros Hl Hk1 Hk2 Hx1 Hx2.
  assert (Hspec : spec_resolve kid (l1 ++ k1 :: l2 ++ k2 :: l3) = Some (pem_wrap c1)).
  { unfold spec_resolve. rewrite list_find_app_r.
    - cbn. rewrite decide_True by done. cbn. by rewrite Hx1.
    - apply list_find_None, Forall_forall. intros k Hin. apply Hl. set_solver. }
  assert (Hcode : find_cert (Some (JString kid)) (l1 ++ k1 :: l2 ++ k2 :: l3) ""
                  = Ok (pem_wrap c2)).
  { rewrite find_cert_app, find_cert_skip by (intros; apply Hl; set_solver).
    rewrite (find_cert_match _ _ _ _ c1 cs1) by done.
    rewrite find_cert_app, find_cert_skip by (intros; apply Hl; set_solver).
    rewrite (find_cert_match _ _ _ _ c2 cs2) by done. apply find_cert_skip. intros; apply Hl; set_solver. }
  split; [done|]. split; [done|]. rewrite Hspec, Hcode. cbn.
  intros Hne Heq. apply Hne. symmetry. apply pem_wrap_inj. congruence.
Qed.

Example find_cert_duplicate_kid_diverges_witness :
  let k1 := mkJSONWebKeys "RSA" "k" "sig" "n1" "AQAB" ["OLD"] [] in
  let k2 := mkJSONWebKeys "RSA" "k" "sig" "n2" "AQAB" ["NEW"] [] in
  let other := mkJSONWebKeys "RSA" "x" "sig" "n3" "AQAB" ["X"] [] in
  find_cert (Some (JString "k")) ([other] ++ k1 :: [] ++ k2 :: [other]) ""
    <> Ok (default "" (spec_resolve "k" ([other] ++ k1 :: [] ++ k2 :: [other]))).
Proof.
  intros k1 k2 other.
  refine (proj2 (proj2 (find_cert_duplicate_kid_diverges "k" [other] [] [other] k1 k2
            "OLD" [] "NEW" [] _ eq_refl eq_refl eq_refl eq_refl)) _); [|done].
  intros k Hin. apply elem_of_app in Hin as [->%list_elem_of_singleton|Hin]; [done|].
  cbn in Hin. apply list_elem_of_singleton in Hin as ->. done.
Defined.

(** * The fetcher *)

(** C15: a transport error of the JWKS GET ends the process after the
    one call, as [log.Fatal] at line 76. *)
Theorem fetch_jwks_transport_error w p err :
  w_http_get w jwks_url = inl err ->
  fetch_jwks w p = (Exit (Fatal "公開鍵を取得失敗"), with_events p [EvHttpGet jwks_url]).
Proof. intros Hg. unfold fetch_jwks. go_step. by rewrite Hg. Qed.

(** C14: a JSON decode error is ignored: the fetch goes on with whatever
    [Decode] filled in (often the zero [Jwks{}]), where the spec requires
    the verification to abort. *)
Theorem fetch_jwks_decode_error_ignored w p resp jwks derr :
  w_http_get w jwks_url = inr resp ->
  w_decode_jwks w (resp_body resp) = (jwks, Some derr) ->
  fetch_jwks w p = (Ok jwks, with_events p [EvHttpGet jwks_url]).
Proof. intros Hg Hd. by rewrite (fetch_jwks_ok w p resp Hg), Hd. Qed.

(** The world of the examples: the JWKS endpoint answers [body]. *)
Definition world_jwks (get : string + HttpResponse) (decoded : Jwks * option string) : World :=
  mkWorld 1700000000 (fun _ => get) (fun _ => decoded) None (fun _ _ => inr "") (fun _ => None)
          (fun _ _ _ => inr (mkHttpResponse 200 "")).

Example fetch_jwks_transport_error_witness :
  w_http_get (world_jwks (inl "dial tcp: timeout") (jwks_zero, None)) jwks_url = inl "dial tcp: timeout" /\
  fetch_jwks (world_jwks (inl "dial tcp: timeout") (jwks_zero, None)) proc_init
    = (Exit (Fatal "公開鍵を取得失敗"), with_events proc_init [EvHttpGet jwks_url]).
Proof. split; [reflexivity|]. by apply fetch_jwks_transport_error with (err := "dial tcp: timeout"). Defined.

Example fetch_jwks_decode_error_ignored_witness :
  let w := world_jwks (inr (mkHttpResponse 200 "<html>")) (jwks_zero, Some "invalid character '<'") in
  w_http_get w jwks_url = inr (mkHttpResponse 200 "<html>") /\
  w_decode_jwks w "<html>" = (jwks_zero, Some "invalid character '<'") /\
  fetch_jwks w proc_init = (Ok jwks_zero, with_events proc_init [EvHttpGet jwks_url]).
Proof.
  cbn zeta. split; [reflexivity|]. split; [reflexivity|].
  by apply fetch_jwks_decode_error_ignored with
    (resp := mkHttpResponse 200 "<html>") (derr := "invalid character '<'").
Defined.

(** C16: the key check of lines 87-94 ends the process when no key
    matches, including when the token header has no string "kid". *)
Theorem resolve_cert_not_found kid jwks p :
  (forall k, k ∈ Keys jwks -> iface_eq_string kid (Kid k) = false) ->
  resolve_cert kid jwks p = (Exit (Fatal "Unable to find appropriate key."), p).
Proof. intros Hn. unfold resolve_cert. go_step. by rewrite find_cert_no_match. Qed.

Example resolve_cert_not_found_witness :
  let jwks := mkJwks [mkJSONWebKeys "RSA" "k" "sig" "n" "AQAB" ["C"] []] in
  (forall k, k ∈ Keys jwks -> iface_eq_string None (Kid k) = false) /\
  resolve_cert None jwks proc_init = (Exit (Fatal "Unable to find appropriate key."), proc_init).
Proof.
  cbn zeta.
  assert (Hn : forall k, k ∈ Keys (mkJwks [mkJSONWebKeys "RSA" "k" "sig" "n" "AQAB" ["C"] []]) ->
    iface_eq_string None (Kid k) = false) by done.
  split; [exact Hn|]. exact (resolve_cert_not_found _ _ _ Hn).
Defined.
