(* ===== verification/Verifier.v ===== *)
(** [verifyToken] (main.go lines 61-119), over any [JoseCodec] and any
    [World].  The first [jwt.Parse] uses a key function that returns the
    HMAC secret "AllYourBase"; an error ends the process.  The JWKS is then
    fetched and resolved (KeySet), the PEM parsed with its error dropped,
    and the token parsed again with a key function that accepts only
    RS256/384/512.  The theorems show that the answer is never [true],
    which tokens end the process before any network call, and that the
    JWKS GET is the only external call. *)

From stdpp Require Import base strings gmap list pretty.
From Stdlib Require Import String Ascii ZArith.
From S2P Require Import Prelude GoNet Jwks JwtGo Env KeySet.

Local Open Scope string_scope.
Local Open Scope go_scope.

Definition nil_dereference :=
  "runtime error: invalid memory address or nil pointer dereference".

(** "%v" of an [interface{}] from a decoded JSON header. *)
Definition fmt_iface (v : option jvalue) : string :=
  match v with
  | Some (JString s) => s
  | Some (JNumber z) => pretty z
  | Some (JBool b) => if b then "true" else "false"
  | Some JComposite => "map[]"
  | Some JNull | None => "<nil>"
  end.

Section Verifier.
  Context `{JoseCodec} (w : World).

  (** The key function of lines 64-66. *)
Definition keyfunc_secret : Keyfunc := fun _ => inl (KBytes "AllYourBase").

  (** The key function of lines 100-107: the type assertion on
      [token.Method] against [*jwt.SigningMethodRSA], then [result]. *)
Definition keyfunc_rsa (result : Key PublicKey) : Keyfunc := fun token =>
    let ok := match tok_method token with
              | Some m => is_SigningMethodRSA m
              | None => false
              end in
    if ok then inl result
    else inr ("unexpected signing method: " ++ fmt_iface (iface_lookup (tok_header token) "alg")).

  (** Line 96: [result, _ := jwt.ParseRSAPublicKeyFromPEM([]byte(cert))];
      on an error [result] is a nil [*rsa.PublicKey]. *)
Definition rsa_result (cert : string) : Key PublicKey :=
    match parse_rsa_pem cert with
    | Some k => KRsa k
    | None => KRsaNil
    end.

  (** Lines 61-111.  The call [jwt.SigningMethodRS256.Verify()] at line 98
      has no arguments and does not type-check in Go; it is left out. *)
Definition verifyToken (tokenString : string) : M bool :=
    r1 <- of_res (Parse (w_now w) tokenString keyfunc_secret) ;;
    match snd r1 with
    | Some _ => exit (Fatal "トークン取得失敗")
    | None =>
        match fst r1 with
        | None => exit (Panic nil_dereference)
        | Some token =>
            jwks <- fetch_jwks w ;;
            cert <- resolve_cert (iface_lookup (tok_header token) "kid") jwks ;;
            let result := rsa_result cert in
            r2 <- of_res (Parse (w_now w) tokenString (keyfunc_rsa result)) ;;
            match fst r2 with
            | None => exit (Panic nil_dereference)
            | Some token2 => ret (tok_valid token2)
            end
        end
    end.
End Verifier.

(** * Properties of verifyToken *)

Section VerifierFacts.
  Context `{JoseCodec} (w : World).

  (** The first parse accepts only HMAC tokens: its key is a [[]byte]. *)
Lemma secret_parse_hmac tok token :
    Parse (w_now w) tok keyfunc_secret = Ok (Some token, None) ->
    exists tk0 h p0 p1 p2, ParseUnverified tok = PUOk tk0 (SigningMethodHMAC h) p0 p1 p2.
  Proof.
    intros (tk0 & m & p0 & p1 & p2 & key & Hu & Hk & Hf)%Parse_ok_key_fits.
    unfold keyfunc_secret in Hk. injection Hk as <-.
    destruct m; cbn in Hf; try discriminate. eauto 10.
  Qed.

  (** The second parse turns every HMAC token down, with an invalid
      token, before any key is used. *)
Lemma rsa_parse_rejects_hmac tok tk0 h p0 p1 p2 result :
    ParseUnverified tok = PUOk tk0 (SigningMethodHMAC h) p0 p1 p2 ->
    exists e, Parse (w_now w) tok (keyfunc_rsa result) = Ok (Some tk0, Some e)
              /\ tok_valid tk0 = false.
  Proof.
    intros Hu. destruct (ParseUnverified_ok_token _ _ _ _ _ _ Hu) as [Hm Hv].
    eexists. split; [|done].
    eapply Parse_keyfunc_error; [exact Hu|].
    unfold keyfunc_rsa. by rewrite Hm.
  Qed.

  (** Any token whose method is not HMAC fails the first parse. *)
Lemma secret_parse_rejects tok tk m p0 p1 p2 :
    ParseUnverified tok = PUOk tk m p0 p1 p2 ->
    key_fits m (KBytes "AllYourBase" : Key PublicKey) = false ->
    exists tk' e, Parse (w_now w) tok keyfunc_secret = Ok (Some tk', Some e).
  Proof. intros Hu Hf. by eapply Parse_wrong_key_type. Qed.

  (** C1: [verifyToken] never answers [true]: a token that passes the
      first parse is HMAC-signed, and the second parse rejects every
      method but RS256/384/512.  Every other run ends the process or
      answers [false]. *)
Theorem verifyToken_never_true tok p : fst (verifyToken w tok p) <> Ok true.
  Proof.
    unfold verifyToken, bind, of_res.
    destruct (Parse _ tok keyfunc_secret) as [[[token|] [e|]]|ex] eqn:H1;
      cbn -[fetch_jwks resolve_cert Parse]; try done.
    destruct (secret_parse_hmac _ _ H1) as (tk0 & h & p0 & p1 & p2 & Hu).
    destruct (fetch_jwks w p) as [[jwks|ex] q1]; cbn -[resolve_cert Parse]; [|done].
    destruct (resolve_cert _ jwks q1) as [[cert|ex] q2]; cbn -[Parse]; [|done].
    destruct (rsa_parse_rejects_hmac _ _ _ _ _ _ (rsa_result cert) Hu) as (e & -> & Hv).
    cbn. by rewrite Hv.
  Qed.

  (** C2: a token signed with any method but HMAC (RS256, what Auth0
      issues, included) ends the process at line 68, before any network
      call and with nothing written. *)
Theorem verifyToken_non_hmac_fatal tok tk m p0 p1 p2 p :
    ParseUnverified tok = PUOk tk m p0 p1 p2 ->
    (forall h, m <> SigningMethodHMAC h) ->
    verifyToken w tok p = (Exit (Fatal "トークン取得失敗"), p).
  Proof.
    intros Hu Hm. unfold verifyToken, bind, of_res.
    destruct (secret_parse_rejects tok tk m p0 p1 p2) as (tk' & e & ->); [done| |done].
    destruct m; try done. by destruct (Hm h).
  Qed.

  (** A token that does not even parse (wrong segment count, bad header
      or claims, missing or unknown alg) ends the process at line 68 with
      no network call. *)
Lemma verifyToken_malformed_fatal tok tk e p :
    ParseUnverified tok = PUErr tk e ->
    verifyToken w tok p = (Exit (Fatal "トークン取得失敗"), p).
  Proof.
    intros Hu. unfold verifyToken, bind, of_res.
    by rewrite (Parse_unverified_error _ _ _ _ _ Hu).
  Qed.

  (** A token whose "exp" claim is in the past ends the process at line
      68 whatever its algorithm: the first parse validates the claims
      before it looks at the signature. *)
Lemma verifyToken_expired_fatal tok tk m p0 p1 p2 p :
    ParseUnverified tok = PUOk tk m p0 p1 p2 ->
    verify_claim verifyExp (tok_claims tk) "exp" (w_now w) false = false ->
    verifyToken w tok p = (Exit (Fatal "トークン取得失敗"), p).
  Proof.
    intros Hu He. unfold verifyToken, bind, of_res.
    destruct (Parse_claims_invalid (w_now w) tok keyfunc_secret tk m p0 p1 p2
                (KBytes "AllYourBase")) as (tk' & e & ->); try done.
    by apply map_claims_valid_expired.
  Qed.

  (** The only external call [verifyToken] can make is the one GET of the
      Auth0 key set, and it writes nothing to the response. *)
Lemma verifyToken_frame tok p :
    snd (verifyToken w tok p) = p \/
    snd (verifyToken w tok p) = with_events p [EvHttpGet jwks_url].
  Proof.
    unfold verifyToken, bind, of_res.
    destruct (Parse _ tok keyfunc_secret) as [[[token|] [e|]]|ex];
      cbn -[fetch_jwks resolve_cert Parse]; auto.
    pose proof (fetch_jwks_state w p) as Hs.
    destruct (fetch_jwks w p) as [[jwks|ex] q1]; cbn -[resolve_cert Parse] in *; subst q1; [|auto].
    pose proof (resolve_cert_state (iface_lookup (tok_header token) "kid") jwks
                  (with_events p [EvHttpGet jwks_url])) as Hr.
    destruct (resolve_cert _ jwks _) as [[cert|ex] q2]; cbn -[Parse] in *; subst q2; [|auto].
    destruct (Parse _ tok _) as [[[token2|] e2]|ex]; cbn; auto.
  Qed.

  (** C11: an HMAC token signed with "AllYourBase" whose kid is found in
      the fetched key set gets the answer [false], after exactly one
      GET: the work of lines 72-107 is done and thrown away. *)
Theorem verifyToken_hmac_returns_false tok token resp cert p :
    Parse (w_now w) tok keyfunc_secret = Ok (Some token, None) ->
    w_http_get w jwks_url = inr resp ->
    find_cert (iface_lookup (tok_header token) "kid")
              (Keys (fst (w_decode_jwks w (resp_body resp)))) "" = Ok cert ->
    cert <> "" ->
    verifyToken w tok p = (Ok false, with_events p [EvHttpGet jwks_url]).
  Proof.
    intros H1 Hg Hf Hne.
    destruct (secret_parse_hmac _ _ H1) as (tk0 & h & p0 & p1 & p2 & Hu).
    unfold verifyToken, bind, of_res. rewrite H1. cbn -[fetch_jwks resolve_cert Parse].
    rewrite (fetch_jwks_ok w p resp Hg). cbn -[resolve_cert Parse].
    rewrite (resolve_cert_found _ _ cert _ Hf Hne). cbn -[Parse].
    destruct (rsa_parse_rejects_hmac _ _ _ _ _ _ (rsa_result cert) Hu) as (e & -> & Hv).
    cbn. by rewrite Hv.
  Qed.
End VerifierFacts.

(** * Sample runs, with the concrete codec of JwtGo *)

(** The Auth0 key set of the samples: one key "k1". *)
Definition sample_jwks : Jwks :=
  mkJwks [mkJSONWebKeys "RSA" "k1" "sig" "n" "AQAB" ["CERT"] []].

Definition sample_world : World :=
  world_jwks (inr (mkHttpResponse 200 "{...}")) (sample_jwks, None).

(** The header the sample codec decodes from "HS256:k1". *)
Definition hs256_k1_header : JSONObject :=
  <[ "kid" := JString "k1" ]> {[ "alg" := JString "HS256" ]}.

Example verifyToken_hmac_returns_false_witness :
  @verifyToken toy_codec sample_world "HS256:k1..AllYourBase" proc_init
  = (Ok false, with_events proc_init [EvHttpGet jwks_url]).
Proof.
  apply (@verifyToken_hmac_returns_false toy_codec sample_world "HS256:k1..AllYourBase"
           (mkToken "HS256:k1..AllYourBase" (Some (SigningMethodHMAC SHA256))
              hs256_k1_header ∅ "AllYourBase" true)
           (mkHttpResponse 200 "{...}") (pem_wrap "CERT")).
  - reflexivity.
  - reflexivity.
  - reflexivity.
  - apply pem_wrap_nonempty.
Defined.

Example verifyToken_non_hmac_fatal_witness :
  @verifyToken toy_codec sample_world "RS256:k1..CERT" proc_init
  = (Exit (Fatal "トークン取得失敗"), proc_init).
Proof.
  apply (@verifyToken_non_hmac_fatal toy_codec sample_world "RS256:k1..CERT"
           (mkToken "RS256:k1..CERT" (Some (SigningMethodRSA SHA256))
              (<[ "kid" := JString "k1" ]> {[ "alg" := JString "RS256" ]}) ∅ "" false)
           (SigningMethodRSA SHA256) "RS256:k1" "" "CERT").
  - reflexivity.
  - discriminate.
Defined.

