(* ===== verification/Handlers.v ===== *)
(** The two HTTP handlers of main.go.  [workflowHandler] (lines 122-150)
    starts a Cloud Workflows execution with the caller's token spliced
    into a JSON argument; it never verifies the token.  [api2Handler]
    (lines 153-175) calls [verifyToken], drops its answer, and proxies a
    GET to the api2 service with the token under "auth0-token".  Both run
    in the process monad [M]: the external calls they make go to the
    trace, and the answer goes to the ResponseWriter. *)

From stdpp Require Import base strings gmap list.
From Stdlib Require Import String Ascii ZArith.
From S2P Require Import Prelude GoNet Json Jwks JwtGo Env KeySet Verifier.

Local Open Scope string_scope.
Local Open Scope go_scope.

(** The constants of lines 20-24. *)
Definition Api2Url := "https://fika-api2-nakagome-wsgwmfbvhq-uc.a.run.app".
Definition ProjectId := "kaigofika-poc01".
Definition Location := "us-central1".
Definition workflowName := "fs-workflow-nakagome".

Definition quote := String "034"%char "".

(** [Parent] at line 138. *)
Definition workflow_parent :=
  "projects/" ++ ProjectId ++ "/locations/" ++ Location ++ "/workflows/" ++ workflowName.

(** [Argument] at line 140: the token is concatenated, not JSON-encoded. *)
Definition workflow_argument (auth0Token : string) :=
  "{" ++ quote ++ "auth0-token" ++ quote ++ ":" ++ quote ++ auth0Token ++ quote ++ "}".

(** [r.Header.Get("X-Forwarded-Authorization")] (lines 125, 155). *)
Definition auth0_token (r : Request) : string :=
  header_get (req_header r) "X-Forwarded-Authorization".

Section Handlers.
  Context `{JoseCodec} (w : World).

  (** Lines 122-150.  When [CreateExecution] fails the handler writes the
      500 error and does not return (lines 144-146): it goes on to
      WriteHeader(200), which is superfluous, and prints the nil [resp]. *)
Definition workflowHandler (r : Request) : M unit :=
    let auth0Token := auth0_token r in
    emit EvNewExecutionsClient ;;
    match w_new_executions_client w with
    | Some err =>
        respond (http_error ("executions.NewClient failed...: " ++ err)
                            StatusInternalServerError)
    | None =>
        emit (EvCreateExecution workflow_parent (workflow_argument auth0Token)) ;;
        resp <- match w_create_execution w workflow_parent (workflow_argument auth0Token) with
                | inl err =>
                    respond (http_error ("client.CreateExecution failed...: " ++ err)
                                        StatusInternalServerError) ;;
                    ret None
                | inr e => ret (Some e)
                end ;;
        respond (write_header StatusOK) ;;
        respond (write (fmt_v resp ++ newline)) ;;
        emit EvCloseExecutionsClient
    end.

  (** The header of the outgoing request (lines 163-164). *)
Definition api2_request_header (auth0Token : string) : Header :=
    header_set ∅ "auth0-token" auth0Token.

  (** Lines 153-175.  The boolean of [verifyToken] is discarded (line
      156).  When [idtoken.NewClient] fails, the 500 is written but the
      handler goes on and calls [Do] on the nil client, which panics.  A
      transport error of [Do] ends the process ([log.Fatalf]).  The
      downstream status is not looked at: the answer is always 200. *)
Definition api2Handler (r : Request) : M unit :=
    let auth0Token := auth0_token r in
    _ <- verifyToken w auth0Token ;;
    emit (EvNewIdTokenClient Api2Url) ;;
    client_ok <- match w_new_idtoken_client w Api2Url with
                 | Some err =>
                     respond (http_error ("idtoken.NewClient failed...: " ++ err)
                                         StatusInternalServerError) ;;
                     ret false
                 | None => ret true
                 end ;;
    let hdr := api2_request_header auth0Token in
    if negb client_ok then exit (Panic nil_dereference)
    else
      emit (EvClientDo "GET" Api2Url hdr) ;;
      match w_client_do w "GET" Api2Url hdr with
      | inl err => exit (Fatal err)
      | inr resp =>
          respond (write_header StatusOK) ;;
          respond (write (resp_body resp ++ newline))
      end.
End Handlers.

(** * The workflow argument read back as JSON *)

Lemma decode_workflow_argument tok :
  decode_object1 (workflow_argument tok) =
  match scan_string (tok ++ String dquote "}") with
  | Some (v, r) => if String.eqb r "}" then Some ("auth0-token", v) else None
  | None => None
  end.
Proof. reflexivity. Qed.

(** C22: round trip of line 140.  Read back as JSON, the argument is the
    one-member object {"auth0-token": tok} exactly when the token has no
    double quote, backslash or control character.  Otherwise the
    caller's text changes what the workflow receives: a quote ends the
    string early and can add members. *)
Theorem workflow_argument_roundtrip tok :
  decode_object1 (workflow_argument tok) = Some ("auth0-token", tok) <->
  json_safe tok = true.
Proof.
  rewrite decode_workflow_argument. split.
  - destruct (scan_string _) as [[v r]|] eqn:Hs; [|done].
    destruct (String.eqb_spec r "}"); [|done]. intros [= ->]. subst.
    by apply (scan_string_unsafe tok "}").
  - intros Hsafe. by rewrite scan_string_safe, String.eqb_refl.
Qed.

(** * The ResponseWriter of a fresh request through the handlers *)

Lemma header_get_missing (h : Header) :
  h !! "X-Forwarded-Authorization" = None ->
  header_get h "X-Forwarded-Authorization" = "".
Proof. unfold header_get. vm_compute (CanonicalMIMEHeaderKey _). by intros ->. Qed.

Section HandlerFacts.
  Context `{JoseCodec} (w : World).

Lemma verifyToken_keeps_response tok p r p1 :
    verifyToken w tok p = (r, p1) -> p_resp p1 = p_resp p.
  Proof.
    intros Hv. destruct (verifyToken_frame w tok p) as [He|He]; rewrite Hv in He;
      cbn in He; by subst p1.
  Qed.

  (** C4: /workflow forwards whatever the caller sent, unverified: with a
      working client, its external calls are exactly NewClient, one
      CreateExecution with the raw header value spliced into the argument,
      and the deferred Close; there is no key-set fetch. *)
Theorem workflowHandler_forwards_unverified r p :
    w_new_executions_client w = None ->
    p_trace (snd (workflowHandler w r p)) =
      (p_trace p ++ [EvNewExecutionsClient;
                     EvCreateExecution workflow_parent (workflow_argument (auth0_token r));
                     EvCloseExecutionsClient])%list.
  Proof.
    intros Hc. unfold workflowHandler. go_step. rewrite Hc. go_step.
    destruct (w_create_execution _ _ _); go_step; cbn; by rewrite <- !app_assoc.
  Qed.

  (** C13: when CreateExecution fails, the handler does not return: the
      500 and its message are written, then the superfluous
      WriteHeader(200) is ignored and "<nil>" is printed after the
      message. *)
Theorem workflowHandler_create_error_falls_through r p err :
    p_resp p = rw_init ->
    w_new_executions_client w = None ->
    w_create_execution w workflow_parent (workflow_argument (auth0_token r)) = inl err ->
    fst (workflowHandler w r p) = Ok tt /\
    rw_status (p_resp (snd (workflowHandler w r p))) = Some StatusInternalServerError /\
    rw_body (p_resp (snd (workflowHandler w r p))) =
      "client.CreateExecution failed...: " ++ err ++ newline ++ "<nil>" ++ newline.
  Proof.
    intros Hr Hc He. unfold workflowHandler. go_step. rewrite Hc. go_step. rewrite He.
    go_step. destruct p as [tr rw]; cbn in Hr; subst rw. cbn.
    split; [done|]. split; [done|]. by autorewrite with go_rw.
  Qed.

  (** C20: the success path of /workflow answers 200 with the execution
      printed and a newline. *)
Theorem workflowHandler_success r p e :
    p_resp p = rw_init ->
    w_new_executions_client w = None ->
    w_create_execution w workflow_parent (workflow_argument (auth0_token r)) = inr e ->
    fst (workflowHandler w r p) = Ok tt /\
    rw_status (p_resp (snd (workflowHandler w r p))) = Some StatusOK /\
    rw_body (p_resp (snd (workflowHandler w r p))) = e ++ newline.
  Proof.
    intros Hr Hc He. unfold workflowHandler. go_step. rewrite Hc. go_step. rewrite He.
    go_step. destruct p as [tr rw]; cbn in Hr; subst rw. by cbn.
  Qed.

  (** C3: /api2 ignores the verdict of [verifyToken]: whenever the
      verification returns at all (it can only return [false]), the
      proxied GET carrying the caller's token is issued. *)
Theorem api2Handler_ignores_verification r p b p1 :
    verifyToken w (auth0_token r) p = (Ok b, p1) ->
    w_new_idtoken_client w Api2Url = None ->
    EvClientDo "GET" Api2Url (api2_request_header (auth0_token r))
      ∈ p_trace (snd (api2Handler w r p)).
  Proof.
    intros Hv Hc. unfold api2Handler, bind. rewrite Hv. go_step. rewrite Hc. go_step.
    destruct (w_client_do _ _ _ _); cbn; set_solver.
  Qed.

  (** C19: /api2 relays the downstream body with status 200, whatever
      status the downstream service answered. *)
Theorem api2Handler_relays_with_200 r p b p1 resp :
    p_resp p = rw_init ->
    verifyToken w (auth0_token r) p = (Ok b, p1) ->
    w_new_idtoken_client w Api2Url = None ->
    w_client_do w "GET" Api2Url (api2_request_header (auth0_token r)) = inr resp ->
    fst (api2Handler w r p) = Ok tt /\
    rw_status (p_resp (snd (api2Handler w r p))) = Some StatusOK /\
    rw_body (p_resp (snd (api2Handler w r p))) = resp_body resp ++ newline.
  Proof.
    intros Hr Hv Hc Hd. pose proof (verifyToken_keeps_response _ _ _ _ Hv) as Hp1.
    unfold api2Handler, bind. rewrite Hv. go_step. rewrite Hc. go_step. rewrite Hd.
    destruct p1 as [tr rw]; cbn in Hp1; subst rw. rewrite Hr. by cbn.
  Qed.

  (** C17: when idtoken.NewClient fails, the 500 is written but the
      handler calls Do on the nil client and panics; no request leaves. *)
Theorem api2Handler_client_error_panics r p b p1 err :
    p_resp p = rw_init ->
    verifyToken w (auth0_token r) p = (Ok b, p1) ->
    w_new_idtoken_client w Api2Url = Some err ->
    api2Handler w r p =
      (Exit (Panic nil_dereference),
       mkProc (p_trace p1 ++ [EvNewIdTokenClient Api2Url])%list
              (http_error ("idtoken.NewClient failed...: " ++ err) StatusInternalServerError rw_init)).
  Proof.
    intros Hr Hv Hc. pose proof (verifyToken_keeps_response _ _ _ _ Hv) as Hp1.
    unfold api2Handler, bind. rewrite Hv. go_step. rewrite Hc. go_step.
    destruct p1 as [tr rw]; cbn in Hp1; subst rw. by rewrite Hr.
  Qed.

  (** C18: a transport error of the proxied GET ends the whole process
      ([log.Fatalf] at line 167), not just the request. *)
Theorem api2Handler_transport_error_fatal r p b p1 err :
    verifyToken w (auth0_token r) p = (Ok b, p1) ->
    w_new_idtoken_client w Api2Url = None ->
    w_client_do w "GET" Api2Url (api2_request_header (auth0_token r)) = inl err ->
    fst (api2Handler w r p) = Exit (Fatal err).
  Proof.
    intros Hv Hc Hd. unfold api2Handler, bind. rewrite Hv. go_step. rewrite Hc. go_step.
    by rewrite Hd.
  Qed.

  (** C12: a request without the X-Forwarded-Authorization header ends
      the process inside [verifyToken], before any external call: no
      key-set fetch, no downstream request, nothing written. *)
Theorem api2Handler_missing_header_fatal r p :
    req_header r !! "X-Forwarded-Authorization" = None ->
    api2Handler w r p = (Exit (Fatal "トークン取得失敗"), p).
  Proof.
    intros Hh. unfold api2Handler, auth0_token. rewrite header_get_missing by done.
    unfold bind at 1. rewrite (verifyToken_malformed_fatal w "" None
      (malformed "token contains an invalid number of segments")); done.
  Qed.

  (** C21: the spec's scenario of an expired token at /api2 (section 8
      asks for a 401 with no downstream call): the whole process ends
      inside [verifyToken], before any external call and with nothing
      written. *)
Theorem api2Handler_expired_token_fatal r p tk m p0 p1 p2 :
    ParseUnverified (auth0_token r) = PUOk tk m p0 p1 p2 ->
    verify_claim verifyExp (tok_claims tk) "exp" (w_now w) false = false ->
    api2Handler w r p = (Exit (Fatal "トークン取得失敗"), p).
  Proof.
    intros Hu He. unfold api2Handler. unfold bind at 1.
    by rewrite (verifyToken_expired_fatal w _ _ _ _ _ _ p Hu He).
  Qed.
End HandlerFacts.

(** * Sample runs of the handlers *)

Definition sample_request (tok : string) : Request :=
  mkRequest "GET" "/api2" "/api2" "" 1 1 {[ "X-Forwarded-Authorization" := [tok] ]}.

(** A world whose key set is [sample_jwks], with the given answers of the
    Workflows client, the idtoken client and the downstream service. *)
Definition handler_world (create : string + string) (idc : option string)
    (downstream : string + HttpResponse) : World :=
  mkWorld 1700000000 (fun _ => inr (mkHttpResponse 200 "{...}")) (fun _ => (sample_jwks, None))
          None (fun _ _ => create) (fun _ => idc) (fun _ _ _ => downstream).

(** A token that closes the JSON string of the workflow argument. *)
Definition injected_token :=
  "x" ++ quote ++ "," ++ quote ++ "admin" ++ quote ++ ":" ++ quote ++ "true".

Definition hs_token := "HS256:k1..AllYourBase".

Example workflowHandler_forwards_unverified_witness :
  p_trace (snd (workflowHandler (handler_world (inr "exec-1") None (inl ""))
                  (sample_request injected_token) proc_init)) =
    [EvNewExecutionsClient;
     EvCreateExecution workflow_parent (workflow_argument (auth0_token (sample_request injected_token)));
     EvCloseExecutionsClient].
Proof. by apply workflowHandler_forwards_unverified. Defined.

Example workflowHandler_create_error_falls_through_witness :
  let w := handler_world (inl "PermissionDenied") None (inl "") in
  fst (workflowHandler w (sample_request hs_token) proc_init) = Ok tt /\
  rw_status (p_resp (snd (workflowHandler w (sample_request hs_token) proc_init)))
    = Some StatusInternalServerError /\
  rw_body (p_resp (snd (workflowHandler w (sample_request hs_token) proc_init))) =
    "client.CreateExecution failed...: " ++ "PermissionDenied" ++ newline ++ "<nil>" ++ newline.
Proof. by apply workflowHandler_create_error_falls_through. Defined.

Example workflowHandler_success_witness :
  let w := handler_world (inr "exec-1") None (inl "") in
  fst (workflowHandler w (sample_request hs_token) proc_init) = Ok tt /\
  rw_status (p_resp (snd (workflowHandler w (sample_request hs_token) proc_init)))
    = Some StatusOK /\
  rw_body (p_resp (snd (workflowHandler w (sample_request hs_token) proc_init)))
    = "exec-1" ++ newline.
Proof. by apply workflowHandler_success. Defined.

Example api2Handler_ignores_verification_witness :
  let w := handler_world (inl "") None (inr (mkHttpResponse 200 "ok")) in
  EvClientDo "GET" Api2Url (api2_request_header (auth0_token (sample_request hs_token)))
    ∈ p_trace (snd (@api2Handler toy_codec w (sample_request hs_token) proc_init)).
Proof.
  apply (api2Handler_ignores_verification _ _ proc_init false
           (with_events proc_init [EvHttpGet jwks_url])); reflexivity.
Defined.

Example api2Handler_relays_with_200_witness :
  let w := handler_world (inl "") None (inr (mkHttpResponse 503 "upstream down")) in
  fst (@api2Handler toy_codec w (sample_request hs_token) proc_init) = Ok tt /\
  rw_status (p_resp (snd (@api2Handler toy_codec w (sample_request hs_token) proc_init)))
    = Some StatusOK /\
  rw_body (p_resp (snd (@api2Handler toy_codec w (sample_request hs_token) proc_init)))
    = resp_body (mkHttpResponse 503 "upstream down") ++ newline.
Proof.
  apply (api2Handler_relays_with_200 _ _ proc_init false
           (with_events proc_init [EvHttpGet jwks_url])); reflexivity.
Defined.

Example api2Handler_client_error_panics_witness :
  let w := handler_world (inl "") (Some "no credentials") (inr (mkHttpResponse 200 "ok")) in
  @api2Handler toy_codec w (sample_request hs_token) proc_init =
    (Exit (Panic nil_dereference),
     mkProc (p_trace (with_events proc_init [EvHttpGet jwks_url]) ++ [EvNewIdTokenClient Api2Url])%list
            (http_error ("idtoken.NewClient failed...: " ++ "no credentials")
                        StatusInternalServerError rw_init)).
Proof.
  apply (api2Handler_client_error_panics _ _ proc_init false
           (with_events proc_init [EvHttpGet jwks_url])); reflexivity.
Defined.

Example api2Handler_transport_error_fatal_witness :
  let w := handler_world (inl "") None (inl "connection refused") in
  fst (@api2Handler toy_codec w (sample_request hs_token) proc_init)
    = Exit (Fatal "connection refused").
Proof.
  apply (api2Handler_transport_error_fatal _ _ proc_init false
           (with_events proc_init [EvHttpGet jwks_url])); reflexivity.
Defined.

Example api2Handler_missing_header_fatal_witness :
  let w := handler_world (inl "") None (inr (mkHttpResponse 200 "ok")) in
  @api2Handler toy_codec w (mkRequest "GET" "/api2" "/api2" "" 1 1 ∅) proc_init
    = (Exit (Fatal "トークン取得失敗"), proc_init).
Proof. by apply api2Handler_missing_header_fatal. Defined.

Example api2Handler_expired_token_fatal_witness :
  let w := handler_world (inl "") None (inr (mkHttpResponse 200 "ok")) in
  @api2Handler toy_codec w (sample_request "HS256:k1.expired.AllYourBase") proc_init
    = (Exit (Fatal "トークン取得失敗"), proc_init).
Proof.
  apply (api2Handler_expired_token_fatal _ _ _
           (mkToken "HS256:k1.expired.AllYourBase" (Some (SigningMethodHMAC SHA256))
              hs256_k1_header {[ "exp" := JNumber 1000 ]} "" false)
           (SigningMethodHMAC SHA256) "HS256:k1" "expired" "AllYourBase");
    reflexivity.
Defined.

(** The token [injected_token] does not come back: the argument it makes
    is an object with two members, "auth0-token" and "admin". *)
Example workflow_argument_injected :
  workflow_argument injected_token =
    "{" ++ quote ++ "auth0-token" ++ quote ++ ":" ++ quote ++ "x" ++ quote ++ ","
    ++ quote ++ "admin" ++ quote ++ ":" ++ quote ++ "true" ++ quote ++ "}" /\
  decode_object1 (workflow_argument injected_token) = None.
Proof. split; reflexivity. Qed.
