(* ===== verification/Main.v ===== *)
(** [main] (main.go lines 29-45) and the server it starts.  [main]
    creates [router := http.NewServeMux()] but registers both handlers
    with [http.HandleFunc], which adds them to [http.DefaultServeMux].
    It then serves [router].  The served mux therefore has no pattern:
    [serve] (ServeMux.ServeHTTP) never reaches a handler of the program,
    and answers 400, a 301 redirect, or NotFound. *)

From stdpp Require Import base strings gmap list.
From Stdlib Require Import String ZArith.
From S2P Require Import Prelude GoNet NetPaths Jwks JwtGo Env KeySet Verifier Handlers.

Local Open Scope string_scope.
Local Open Scope go_scope.

(** The handler functions main.go registers. *)
Inductive route := RouteWorkflow | RouteApi2.

(** What [http.ListenAndServe(addr, handler)] is started with. *)
Record Server := mkServer { srv_addr : string; srv_handler : ServeMux route }.

(** Lines 29-45, given [os.Getenv("PORT")] and the DefaultServeMux before
    [main] runs.  Answers the DefaultServeMux after the registrations and
    the server that is started. *)
Definition main (getenv_port : string) (default_mux : ServeMux route)
    : ServeMux route * Server :=
  let router := NewServeMux in
  let default_mux := HandleFunc "/workflow" RouteWorkflow default_mux in
  let default_mux := HandleFunc "/api2" RouteApi2 default_mux in
  let port := if String.eqb getenv_port "" then "8080" else getenv_port in
  (default_mux, mkServer (":" ++ port) router).

Section Serve.
  Context `{JoseCodec} (w : World).

Definition route_handler (rt : route) : Request -> M unit :=
    match rt with
    | RouteWorkflow => workflowHandler w
    | RouteApi2 => api2Handler w
    end.

  (** [http.ListenAndServe(addr, router)] answers each request with
      [router.ServeHTTP(w, r)] (server.go): RequestURI "*" gets 400;
      otherwise [ServeMux.Handler] picks a redirect, the registered
      handler, or NotFound.  A failing ListenAndServe (its log.Fatalf,
      lines 43-44) is not modelled. *)
Definition serve (mux : ServeMux route) (r : Request) : M unit :=
    if String.eqb (req_uri r) "*" then respond (bad_request_star r)
    else match mux_handler mux r with
         | TRoute rt => route_handler rt r
         | TNotFound => respond NotFound
         | TRedirect u => respond (Redirect r u StatusMovedPermanently)
         end.
End Serve.

(** * What the started server does *)

(** The served mux is empty: [ServeMux.Handler] finds nothing, and only
    path cleaning can turn the answer into a redirect. *)
Lemma mux_handler_nil {H} (r : Request) :
  mux_handler (H := H) [] r =
    if negb (String.eqb (req_method r) "CONNECT")
       && negb (String.eqb (cleanPath (req_path r)) (req_path r))
    then TRedirect (url_string (cleanPath (req_path r)) (req_query r))
    else TNotFound.
Proof.
  unfold mux_handler, should_redirect. cbn [mux_exact].
  rewrite andb_false_r.
  destruct (String.eqb (req_method r) "CONNECT"); cbn; [done|].
  by case_match.
Qed.

Section MainFacts.
  Context `{JoseCodec} (w : World).

(** What the started server does with a request, whatever the port and
    the DefaultServeMux. *)
Lemma serve_started env dm r :
    serve w (srv_handler (snd (main env dm))) r =
      if String.eqb (req_uri r) "*" then respond (bad_request_star r)
      else if negb (String.eqb (req_method r) "CONNECT")
              && negb (String.eqb (cleanPath (req_path r)) (req_path r))
      then respond (Redirect r (url_string (cleanPath (req_path r)) (req_query r))
                      StatusMovedPermanently)
      else respond NotFound.
  Proof.
    unfold serve, main, NewServeMux. cbn [snd srv_handler]. rewrite mux_handler_nil.
    destruct (String.eqb (req_uri r) "*"); [done|]. by destruct (_ && _).
  Qed.


  (** C23: ServeMux redirects an unclean path once, to its clean form.
      On the server [main] starts, a request (RequestURI not "*", method
      not CONNECT) whose path cleanPath changes returns normally, with no
      external call, answered by http.Redirect with 301.  The Location
      header, decoded as url.Parse decodes a path, is the cleaned path.
      The request for that path gets NotFound, so the client is not
      redirected again. *)
Theorem main_redirects_unclean_path_once env dm r p :
    req_uri r <> "*" -> req_method r <> "CONNECT" -> cleanPath (req_path r) <> req_path r ->
    let u := url_string (cleanPath (req_path r)) (req_query r) in
    serve w (srv_handler (snd (main env dm))) r p
      = (Ok tt, mkProc (p_trace p) (Redirect r u StatusMovedPermanently (p_resp p))) /\
    unescape_path (fst (split_query
      (header_get (rw_header (Redirect r u StatusMovedPermanently (p_resp p))) "Location")))
      = Some (cleanPath (req_path r)) /\
    (forall r' p', req_uri r' <> "*" -> req_path r' = cleanPath (req_path r) ->
      serve w (srv_handler (snd (main env dm))) r' p'
        = (Ok tt, mkProc (p_trace p') (NotFound (p_resp p')))).
  Proof.
    intros Hu Hm Hp u. split_and!.
    - rewrite serve_started.
      rewrite (proj2 (String.eqb_neq _ _) Hu), (proj2 (String.eqb_neq _ _) Hm),
        (proj2 (String.eqb_neq _ _) Hp). done.
    - apply Redirect_location_cleanPath.
    - intros r' p' Hu' Hr'. rewrite serve_started, (proj2 (String.eqb_neq _ _) Hu').
      rewrite Hr', cleanPath_idempotent, String.eqb_refl, andb_false_r. done.
  Qed.

  (** A request the witness serves: GET of the clean path /api2. *)
Definition api2_get : Request := mkRequest "GET" "/api2" "/api2" "" 1 1 ∅.
End MainFacts.


(** A request for //api2: cleaned to /api2, redirected there, and the
    request for /api2 gets NotFound. *)
Lemma main_redirects_unclean_path_once_witness :
  let w := handler_world (inl "") None (inl "") in
  let r := mkRequest "GET" "//api2" "//api2" "" 1 1 ∅ in
  req_uri r <> "*" /\ req_method r <> "CONNECT" /\ cleanPath (req_path r) <> req_path r /\
  @serve toy_codec w (srv_handler (snd (main "" []))) r proc_init
    = (Ok tt, mkProc [] (Redirect r (url_string "/api2" "") StatusMovedPermanently rw_init)) /\
  @serve toy_codec w (srv_handler (snd (main "" []))) api2_get proc_init
    = (Ok tt, mkProc [] (NotFound rw_init)).
Proof.
  intros w r.
  assert (Hu : req_uri r <> "*") by done.
  assert (Hm : req_method r <> "CONNECT") by done.
  assert (Hp : cleanPath (req_path r) <> req_path r) by (vm_compute; discriminate).
  destruct (main_redirects_unclean_path_once w "" [] r proc_init Hu Hm Hp) as (Hs & _ & Hnf).
  split_and!; [exact Hu | exact Hm | exact Hp | exact Hs |].
  apply Hnf; [done | reflexivity].
Defined.

(** What a client of the started server receives. *)
Lemma not_found_response :
  NotFound rw_init =
  mkRW (<["X-Content-Type-Options" := ["nosniff"]]>
          (<["Content-Type" := ["text/plain; charset=utf-8"]]> ∅))
       (Some StatusNotFound)
       (<["X-Content-Type-Options" := ["nosniff"]]>
          (<["Content-Type" := ["text/plain; charset=utf-8"]]> ∅))
       ("404 page not found" ++ newline).
Proof. reflexivity. Qed.
